(** * Deep Research App: a shallow embedding of the research pipeline

    The development follows the Python sources:
    - [utils/helpers.py]        : [sanitize_query], [extract_keywords];
    - [models/schemas.py]       : [WebSearchItem], [WebSearchPlan], [ReportData],
                                  [AppConfig];
    - [agents/*.py]             : the four agents;
    - [core/research_manager.py]: [ResearchManager] and its coroutines;
    - [main.py]                 : the generator [run].

    Python [str] values are embedded as [string]; a character stands for the
    code point of the same number, so the strings of the model are the Python
    strings over U+0000..U+00FF.  On that range [str.strip], [str.lower], the
    class [\w] of [re] and [repr] are given by finite tables, written out
    below. *)

From Stdlib Require Import String Ascii List ZArith Lia Bool Arith.
From Stdlib Require Import Permutation Sorted DecimalString.
Import ListNotations.
Open Scope string_scope.
Open Scope list_scope.
Open Scope nat_scope.

(* ================================================================== *)
(** * Part I: definitions                                              *)
(* ================================================================== *)

(** ** Python built-ins on [str] *)

Module Py.

Definition code (c : ascii) : nat := nat_of_ascii c.

Definition between (lo hi : nat) (c : ascii) : bool :=
  (lo <=? code c) && (code c <=? hi).

(** [str.isspace] on one character: TAB..CR, FS..US, SPACE, NEL, NBSP. *)
Definition isspace (c : ascii) : bool :=
  between 9 13 c || between 28 32 c || (code c =? 133) || (code c =? 160).

(** Alphanumeric in the sense of the Unicode database (alphabetic, decimal,
    digit or numeric), which is what [\w] of a [str] pattern tests. *)
Definition isalnum (c : ascii) : bool :=
  between 48 57 c || between 65 90 c || between 97 122 c
  || (code c =? 170) || (code c =? 178) || (code c =? 179)
  || (code c =? 181) || (code c =? 185) || (code c =? 186)
  || between 188 190 c
  || between 192 214 c || between 216 246 c || between 248 255 c.

(** The class [\w]: alphanumeric or underscore. *)
Definition is_word (c : ascii) : bool := isalnum c || (code c =? 95).

Definition isupper (c : ascii) : bool :=
  between 65 90 c || between 192 214 c || between 216 222 c.

Definition lower_char (c : ascii) : ascii :=
  if isupper c then ascii_of_nat (code c + 32) else c.

(** [s.lower()] *)
Fixpoint lower (s : string) : string :=
  match s with
  | EmptyString => EmptyString
  | String c r => String (lower_char c) (lower r)
  end.

(** [s.lstrip()], [s.rstrip()] and [s.strip()] with no argument. *)
Fixpoint lstrip (s : string) : string :=
  match s with
  | EmptyString => EmptyString
  | String c r => if isspace c then lstrip r else s
  end.

Fixpoint rstrip (s : string) : string :=
  match s with
  | EmptyString => EmptyString
  | String c r =>
      match rstrip r with
      | EmptyString => if isspace c then EmptyString else String c EmptyString
      | r' => String c r'
      end
  end.

Definition strip (s : string) : string := rstrip (lstrip s).

(** [s[:n]] for [0 <= n]. *)
Fixpoint take (n : nat) (s : string) : string :=
  match n, s with
  | S k, String c r => String c (take k r)
  | _, _ => EmptyString
  end.

(** [l[:k]] on a list, for any Python integer [k]: a negative bound counts
    from the end and is clamped at the start of the list. *)
Definition slice_to {A : Type} (k : Z) (l : list A) : list A :=
  let n := Z.of_nat (List.length l) in
  let stop := if (k <? 0)%Z then Z.max 0 (k + n) else Z.min k n in
  firstn (Z.to_nat stop) l.

(** Truth value of a [str]: the empty string is false. *)
Definition truthy (s : string) : bool :=
  match s with EmptyString => false | String _ _ => true end.

(** [w in t] on strings. *)
Fixpoint contains (t w : string) : bool :=
  prefix w t
  || match t with
     | EmptyString => false
     | String _ r => contains r w
     end.

(** [str(n)] for [n : int]. *)
Definition str_of_nat (n : nat) : string :=
  NilEmpty.string_of_uint (Nat.to_uint n).

Definition str_of_Z (z : Z) : string :=
  NilEmpty.string_of_int (Z.to_int z).

(** [sep.join(l)] *)
Fixpoint join (sep : string) (l : list string) : string :=
  match l with
  | [] => EmptyString
  | [x] => x
  | x :: rest => x ++ sep ++ join sep rest
  end.

(** *** [repr] of a [str] and of a list of [str]

    [str.isprintable] fails on the control characters, on NBSP and on the
    soft hyphen; [repr] writes those as [\xhh] and escapes the backslash,
    the chosen quote, TAB, LF and CR. *)

Definition dquote : ascii := "034"%char.
Definition squote : ascii := "039"%char.
Definition backslash : ascii := "092"%char.

Definition isprintable (c : ascii) : bool :=
  negb (between 0 31 c || between 127 160 c || (code c =? 173)).

Fixpoint has_char (a : ascii) (s : string) : bool :=
  match s with
  | EmptyString => false
  | String c r => Ascii.eqb c a || has_char a r
  end.

Definition hex_digit (n : nat) : ascii :=
  if n <? 10 then ascii_of_nat (48 + n) else ascii_of_nat (87 + n).

Definition repr_char (quote c : ascii) : string :=
  if Ascii.eqb c quote || Ascii.eqb c backslash then
    String backslash (String c EmptyString)
  else if code c =? 9 then String backslash "t"
  else if code c =? 10 then String backslash "n"
  else if code c =? 13 then String backslash "r"
  else if isprintable c then String c EmptyString
  else String backslash
         (String "x"%char
            (String (hex_digit (code c / 16))
               (String (hex_digit (code c mod 16)) EmptyString))).

Fixpoint repr_body (quote : ascii) (s : string) : string :=
  match s with
  | EmptyString => EmptyString
  | String c r => repr_char quote c ++ repr_body quote r
  end.

Definition repr_str (s : string) : string :=
  let quote :=
    if has_char squote s && negb (has_char dquote s) then dquote else squote in
  String quote (repr_body quote s ++ String quote EmptyString).

(** [str(l)] for [l : List[str]]. *)
Definition str_of_list (l : list string) : string :=
  "[" ++ join ", " (map repr_str l) ++ "]".

(** *** [re.findall(r"\b\w+\b", s)]

    A match starts at a word character that follows a non-word character
    or the start of [s]; the greedy [\w+] takes the whole run, after which
    the closing [\b] holds.  The scan keeps the run read so far in [cur]. *)
Fixpoint findall_words_from (cur s : string) : list string :=
  match s with
  | EmptyString => if truthy cur then [cur] else []
  | String c r =>
      if is_word c then findall_words_from (cur ++ String c EmptyString) r
      else if truthy cur then cur :: findall_words_from EmptyString r
      else findall_words_from EmptyString r
  end.

Definition findall_words (s : string) : list string :=
  findall_words_from EmptyString s.

(** *** [dict] with [str] keys, as an association list in insertion order *)

Definition dict (V : Type) : Type := list (string * V).

Fixpoint dict_get {V : Type} (d : dict V) (k : string) (default : V) : V :=
  match d with
  | [] => default
  | (k', v) :: rest => if String.eqb k' k then v else dict_get rest k default
  end.

(** [d[k] = v]: an existing key keeps its position, a new key goes last. *)
Fixpoint dict_set {V : Type} (d : dict V) (k : string) (v : V) : dict V :=
  match d with
  | [] => [(k, v)]
  | (k', v') :: rest =>
      if String.eqb k' k then (k', v) :: rest
      else (k', v') :: dict_set rest k v
  end.

(** [sorted(items, key=lambda x: x[1], reverse=True)]: a stable sort, so
    items of equal count keep their relative order. *)
Fixpoint insert_desc {K : Type} (x : K * nat) (l : list (K * nat))
  : list (K * nat) :=
  match l with
  | [] => [x]
  | y :: rest =>
      if snd x <? snd y then y :: insert_desc x rest else x :: y :: rest
  end.

Fixpoint sorted_by_count_desc {K : Type} (l : list (K * nat))
  : list (K * nat) :=
  match l with
  | [] => []
  | x :: rest => insert_desc x (sorted_by_count_desc rest)
  end.

End Py.

(** [w] occurs in [t] as a contiguous piece. *)
Definition occurs_in (w t : string) : Prop :=
  exists pre post : string, t = (pre ++ w ++ post)%string.

(** The string is empty or holds white space only. *)
Fixpoint blank (s : string) : bool :=
  match s with
  | EmptyString => true
  | String c r => Py.isspace c && blank r
  end.

(** ** [utils/helpers.py] *)

(** The character class of the pattern given to [re.sub]: less-than,
    greater-than and the two quotes. *)
Definition harmful (c : ascii) : bool :=
  Ascii.eqb c "<"%char || Ascii.eqb c ">"%char
  || Ascii.eqb c Py.dquote || Ascii.eqb c Py.squote.

Fixpoint remove_harmful (s : string) : string :=
  match s with
  | EmptyString => EmptyString
  | String c r => if harmful c then remove_harmful r else String c (remove_harmful r)
  end.

Definition sanitize_query (query : string) : string :=
  if negb (Py.truthy query) then EmptyString
  else
    let sanitized := remove_harmful (Py.strip query) in
    if 500 <? String.length sanitized then Py.take 500 sanitized
    else sanitized.

Definition stop_words : list string :=
  [ "the"; "a"; "an"; "and"; "or"; "but"; "in"; "on"; "at"; "to"; "for"; "of";
    "with"; "by"; "is"; "are"; "was"; "were"; "be"; "been"; "being"; "have";
    "has"; "had"; "do"; "does"; "did"; "will"; "would"; "could"; "should";
    "may"; "might"; "can"; "this"; "that"; "these"; "those" ]%string.

Definition in_stop_words (w : string) : bool :=
  existsb (String.eqb w) stop_words.

Definition keep_word (w : string) : bool :=
  negb (in_stop_words w) && (2 <? String.length w).

(** One turn of the counting loop:
    [word_count[word] = word_count.get(word, 0) + 1]. *)
Definition count_step (word_count : Py.dict nat) (word : string) : Py.dict nat :=
  Py.dict_set word_count word (Py.dict_get word_count word 0 + 1).

Definition count_words (keywords : list string) : Py.dict nat :=
  fold_left count_step keywords [].

Definition extract_keywords (text : string) (max_keywords : Z) : list string :=
  let words := Py.findall_words (Py.lower text) in
  let keywords := filter keep_word words in
  let word_count := count_words keywords in
  let sorted_keywords := Py.sorted_by_count_desc word_count in
  map fst (Py.slice_to max_keywords sorted_keywords).

(** The order by descending count, on the entries of a dictionary. *)
Definition count_ge {K : Type} (a b : K * nat) : Prop := snd b <= snd a.

(** The distinct strings of a list, each at the place where it occurs
    first. *)
Fixpoint first_occurrences (l : list string) : list string :=
  match l with
  | [] => []
  | x :: rest =>
      x :: filter (fun y => negb (String.eqb y x)) (first_occurrences rest)
  end.

(** [w in keys], for a list of keys. *)
Definition among (keys : list string) (w : string) : bool :=
  existsb (String.eqb w) keys.

(** How often [w] occurs as a word of the text, letter case aside. *)
Definition frequency (text w : string) : nat :=
  count_occ string_dec (Py.findall_words (Py.lower text)) w.

(** The keywords of the text are well formed with respect to the text
    [within]: each is in lower case, longer than two characters, no stop
    word, and occurs in [within]. *)
Definition keyword_ok (within w : string) : Prop :=
  Py.lower w = w
  /\ 2 < String.length w
  /\ ~ In w stop_words
  /\ occurs_in w within.

(** The property of [extract_keywords] read on the text as it is given. *)
Definition keywords_of_given_text (text : string) (max_keywords : Z) : Prop :=
  (Z.of_nat (List.length (extract_keywords text max_keywords)) <= max_keywords)%Z
  /\ Forall (keyword_ok text) (extract_keywords text max_keywords)
  /\ StronglySorted (fun a b => frequency text b <= frequency text a)
                    (extract_keywords text max_keywords).

(** *** The other helpers of [utils/helpers.py] *)

(** [s.split(sep)] for a separator of one character: the pieces between the
    occurrences of [sep], one more than there are occurrences. *)
Fixpoint split_on (sep : ascii) (s : string) : list string :=
  match s with
  | EmptyString => [EmptyString]
  | String c r =>
      if Ascii.eqb c sep then EmptyString :: split_on sep r
      else
        match split_on sep r with
        | piece :: pieces => String c piece :: pieces
        | [] => [String c EmptyString]
        end
  end.

(** [s.lstrip(chars)], [s.rstrip(chars)] and [s.strip(chars)]: the characters
    of [chars] are removed from the ends. *)
Fixpoint lstrip_chars (chars s : string) : string :=
  match s with
  | EmptyString => EmptyString
  | String c r => if Py.has_char c chars then lstrip_chars chars r else s
  end.

Fixpoint rstrip_chars (chars s : string) : string :=
  match s with
  | EmptyString => EmptyString
  | String c r =>
      match rstrip_chars chars r with
      | EmptyString =>
          if Py.has_char c chars then EmptyString else String c EmptyString
      | r' => String c r'
      end
  end.

Definition strip_chars (chars s : string) : string :=
  rstrip_chars chars (lstrip_chars chars s).

(** The strings of a list put end to end. *)
Definition concat_strings (l : list string) : string :=
  fold_right String.append EmptyString l.

(** A sentence with the full stop the loop puts after it. *)
Definition dotted (sentence : string) : string := (sentence ++ ".")%string.

(** The loop of [chunk_text] over the sentences, on the list of chunks and
    the current chunk. *)
Fixpoint chunk_loop (max_length : Z) (sentences : list string)
         (chunks : list string) (current_chunk : string)
  : list string * string :=
  match sentences with
  | [] => (chunks, current_chunk)
  | sentence :: rest =>
      if (Z.of_nat (String.length (current_chunk ++ sentence)) <=? max_length)%Z
      then chunk_loop max_length rest chunks (current_chunk ++ (sentence ++ "."))
      else
        let chunks :=
          if Py.truthy current_chunk then chunks ++ [Py.strip current_chunk]
          else chunks in
        chunk_loop max_length rest chunks (sentence ++ ".")
  end.

Definition chunk_text (text : string) (max_length : Z) : list string :=
  if (Z.of_nat (String.length text) <=? max_length)%Z then [text]
  else
    match chunk_loop max_length (split_on "."%char text) [] EmptyString with
    | (chunks, current_chunk) =>
        if Py.truthy current_chunk then chunks ++ [Py.strip current_chunk]
        else chunks
    end.

Definition default_max_length : Z := 1000.

(** The class of [re.sub] in [safe_filename]: the characters no file name
    may hold. *)
Definition invalid_in_filename (c : ascii) : bool :=
  Ascii.eqb c "<"%char || Ascii.eqb c ">"%char || Ascii.eqb c ":"%char
  || Ascii.eqb c Py.dquote || Ascii.eqb c "/"%char || Ascii.eqb c Py.backslash
  || Ascii.eqb c "|"%char || Ascii.eqb c "?"%char || Ascii.eqb c "*"%char.

Fixpoint replace_invalid (s : string) : string :=
  match s with
  | EmptyString => EmptyString
  | String c r =>
      String (if invalid_in_filename c then "_"%char else c) (replace_invalid r)
  end.

Definition safe_filename (filename : string) : string :=
  let safe := replace_invalid filename in
  let safe := strip_chars ". " safe in
  if 255 <? String.length safe then Py.take 255 safe else safe.

(** One string is obtained from another by deleting characters. *)
Inductive subseq : string -> string -> Prop :=
| subseq_nil : subseq EmptyString EmptyString
| subseq_keep (c : ascii) (s t : string) :
    subseq s t -> subseq (String c s) (String c t)
| subseq_drop (c : ascii) (s t : string) :
    subseq s t -> subseq s (String c t).

(** The bound the loop keeps on the current chunk: it is empty, or within
    one character of [max_length], or one sentence with its full stop. *)
Definition chunk_bounded (max_length : Z) (sentences : list string)
           (chunk : string) : Prop :=
  (Z.of_nat (String.length chunk) <= max_length + 1)%Z
  \/ exists sentence, In sentence sentences /\ subseq chunk (dotted sentence).

(** The string begins with one of the characters of [chars]. *)
Definition starts_with_any (chars s : string) : bool :=
  match s with
  | EmptyString => false
  | String c _ => Py.has_char c chars
  end.

(** Every character of the string satisfies [p]. *)
Fixpoint all_chars (p : ascii -> bool) (s : string) : bool :=
  match s with
  | EmptyString => true
  | String c r => p c && all_chars p r
  end.

(** How often a character occurs in a string. *)
Fixpoint count_char (a : ascii) (s : string) : nat :=
  match s with
  | EmptyString => 0
  | String c r => (if Ascii.eqb c a then 1 else 0) + count_char a r
  end.

(** ** Regular expressions, as far as [validate_email] needs them

    [re.match] finds a match when some way of matching exists, so on a
    pattern anchored at both ends it decides whether the whole string is in
    the language of the pattern; the derivative of a pattern by a character
    decides that one character at a time. *)

Module Re.

Inductive regex : Type :=
| Void
| Eps
| Class (p : ascii -> bool)
| Cat (r1 r2 : regex)
| Alt (r1 r2 : regex)
| Star (r : regex).

(** [r+], [r?] and one given character. *)
Definition Plus (r : regex) : regex := Cat r (Star r).
Definition Opt (r : regex) : regex := Alt r Eps.
Definition Chr (a : ascii) : regex := Class (Ascii.eqb a).

Fixpoint nullable (r : regex) : bool :=
  match r with
  | Void => false
  | Eps => true
  | Class _ => false
  | Cat r1 r2 => nullable r1 && nullable r2
  | Alt r1 r2 => nullable r1 || nullable r2
  | Star _ => true
  end.

Fixpoint deriv (c : ascii) (r : regex) : regex :=
  match r with
  | Void => Void
  | Eps => Void
  | Class p => if p c then Eps else Void
  | Cat r1 r2 =>
      if nullable r1 then Alt (Cat (deriv c r1) r2) (deriv c r2)
      else Cat (deriv c r1) r2
  | Alt r1 r2 => Alt (deriv c r1) (deriv c r2)
  | Star r1 => Cat (deriv c r1) (Star r1)
  end.

Fixpoint fullmatch (r : regex) (s : string) : bool :=
  match s with
  | EmptyString => nullable r
  | String c rest => fullmatch (deriv c r) rest
  end.

(** The language of a pattern. *)
Inductive matches : regex -> string -> Prop :=
| m_eps : matches Eps EmptyString
| m_class (p : ascii -> bool) (c : ascii) :
    p c = true -> matches (Class p) (String c EmptyString)
| m_cat (r1 r2 : regex) (s1 s2 : string) :
    matches r1 s1 -> matches r2 s2 -> matches (Cat r1 r2) (s1 ++ s2)
| m_alt_l (r1 r2 : regex) (s : string) :
    matches r1 s -> matches (Alt r1 r2) s
| m_alt_r (r1 r2 : regex) (s : string) :
    matches r2 s -> matches (Alt r1 r2) s
| m_star_nil (r : regex) : matches (Star r) EmptyString
| m_star_cons (r : regex) (s1 s2 : string) :
    matches r s1 -> matches (Star r) s2 -> matches (Star r) (s1 ++ s2).

End Re.

(** The three classes of the pattern of [validate_email]. *)
Definition ascii_letter (c : ascii) : bool :=
  Py.between 65 90 c || Py.between 97 122 c.

Definition ascii_alnum (c : ascii) : bool :=
  ascii_letter c || Py.between 48 57 c.

Definition local_char (c : ascii) : bool :=
  ascii_alnum c || Py.has_char c "._%+-".

Definition domain_char (c : ascii) : bool :=
  ascii_alnum c || Py.has_char c ".-".

(** The pattern, from [^] to [$]; without [re.MULTILINE] the closing [$]
    holds at the end of the string and also just before a newline that ends
    the string, which is the optional last character here. *)
Definition email_pattern : Re.regex :=
  Re.Cat (Re.Plus (Re.Class local_char))
    (Re.Cat (Re.Chr "@")
       (Re.Cat (Re.Plus (Re.Class domain_char))
          (Re.Cat (Re.Chr ".")
             (Re.Cat (Re.Class ascii_letter)
                (Re.Cat (Re.Class ascii_letter)
                   (Re.Cat (Re.Star (Re.Class ascii_letter))
                      (Re.Opt (Re.Chr "010")))))))).

Definition validate_email (email : string) : bool :=
  if negb (Py.truthy email) then false
  else Re.fullmatch email_pattern email.

(** The strings the pattern of [validate_email] accepts. *)
Definition email_shape (email : string) : Prop :=
  exists local domain tld newline : string,
    email = (local ++ "@" ++ domain ++ "." ++ tld ++ newline)%string
    /\ local <> EmptyString /\ all_chars local_char local = true
    /\ domain <> EmptyString /\ all_chars domain_char domain = true
    /\ 2 <= String.length tld /\ all_chars ascii_letter tld = true
    /\ (newline = EmptyString \/ newline = String "010" EmptyString).

(** ** [models/schemas.py] *)

Record WebSearchItem : Type :=
  { reason : string;
    query : string }.

Record WebSearchPlan : Type :=
  { searches : list WebSearchItem }.

Record ReportData : Type :=
  { short_summary : string;
    markdown_report : string;
    follow_up_questions : list string }.

Record EmailConfig : Type :=
  { sendgrid_api_key : string;
    from_email : string;
    to_email : string }.

Record AppConfig : Type :=
  { openai_api_key : string;
    email_config : EmailConfig;
    log_level : string;
    max_searches : Z }.

(** The defaults of the two optional fields of [AppConfig]. *)
Definition default_log_level : string := "INFO".
Definition default_max_searches : Z := 5.

(** A search item is its (query, rationale) pair, a plan the ordered list of
    those pairs. *)
Definition item_pair (item : WebSearchItem) : string * string :=
  (query item, reason item).

Definition item_of_pair (p : string * string) : WebSearchItem :=
  {| reason := snd p; query := fst p |}.

Definition plan_pairs (plan : WebSearchPlan) : list (string * string) :=
  map item_pair (searches plan).

Definition plan_of_pairs (l : list (string * string)) : WebSearchPlan :=
  {| searches := map item_of_pair l |}.

(** ** [utils/config.py]

    The environment is what [os.getenv] sees once [load_dotenv] has run.
    The conversion [int] of a string is the interpreter's and is taken as
    given; the two exception classes are those the module can meet. *)

Module Config.

Definition Env : Type := string -> option string.

Inductive error : Type :=
| ValueError (msg : string)
| TypeError (msg : string).

(** [os.getenv(key, default)] *)
Definition getenv (env : Env) (key : string) (default : option string)
  : option string :=
  match env key with
  | Some value => Some value
  | None => default
  end.

Definition get_required_env_var (env : Env) (key : string) : error + string :=
  match getenv env key None with
  | Some value =>
      if Py.truthy value then inr value
      else inl (ValueError ("Required environment variable " ++ key
                            ++ " is not set"))
  | None =>
      inl (ValueError ("Required environment variable " ++ key ++ " is not set"))
  end.

Definition get_optional_env_var (env : Env) (key : string)
           (default : option string) : option string :=
  getenv env key default.

Section WithInt.

(** [int(s)] for a string [s]: the integer, or a [ValueError]. *)
Variable int : string -> string + Z.

Definition get_config (env : Env) : error + AppConfig :=
  match get_required_env_var env "SENDGRID_API_KEY" with
  | inl e => inl e
  | inr sendgrid =>
  match get_required_env_var env "FROM_EMAIL" with
  | inl e => inl e
  | inr sender =>
  match get_required_env_var env "TO_EMAIL" with
  | inl e => inl e
  | inr recipient =>
  let email_config :=
    {| sendgrid_api_key := sendgrid; from_email := sender;
       to_email := recipient |} in
  match get_required_env_var env "OPENAI_API_KEY" with
  | inl e => inl e
  | inr key =>
  let level := get_optional_env_var env "LOG_LEVEL" (Some "INFO"%string) in
  match get_optional_env_var env "MAX_SEARCHES" (Some "5"%string) with
  | None => inl (TypeError "int() argument must be a string")
  | Some text =>
  match int text with
  | inl msg => inl (ValueError msg)
  | inr n =>
  match level with
  | None => inl (ValueError "log_level: Input should be a valid string")
  | Some level =>
      inr {| openai_api_key := key; email_config := email_config;
             log_level := level; max_searches := n |}
  end end end end end end end.

(** [validate_config]: only a [ValueError] is turned into [False]. *)
Definition validate_config (env : Env) : error + bool :=
  match get_config env with
  | inr _ => inr true
  | inl (ValueError _) => inr false
  | inl e => inl e
  end.

End WithInt.

(** The variables [get_config] requires, in the order in which it reads
    them: those of the email configuration first. *)
Definition required_variables : list string :=
  [ "SENDGRID_API_KEY"; "FROM_EMAIL"; "TO_EMAIL"; "OPENAI_API_KEY" ]%string.

(** The variable is set to a string that is not empty. *)
Definition is_set (env : Env) (key : string) : bool :=
  match env key with
  | Some value => Py.truthy value
  | None => false
  end.

(** The value of a variable, or what [os.getenv] falls back to. *)
Definition value_or (env : Env) (key default : string) : string :=
  match env key with
  | Some value => value
  | None => default
  end.

(** A conversion that knows the literal of the default only, and an
    environment with the four required variables. *)
Definition int_of_default (text : string) : string + Z :=
  if String.eqb text "5" then inr 5%Z
  else inl ("invalid literal for int() with base 10")%string.

(** An environment given by a list of bindings, the first for a key
    counting. *)
Fixpoint env_of (bindings : list (string * string)) : Env :=
  fun key =>
    match bindings with
    | [] => None
    | (k, v) :: rest => if String.eqb k key then Some v else env_of rest key
    end.

Definition full_env : Env :=
  env_of [ ("OPENAI_API_KEY", "sk-test"); ("SENDGRID_API_KEY", "SG.test");
           ("FROM_EMAIL", "from@example.com"); ("TO_EMAIL", "to@example.com") ]%string.

(** The same without the sender's address. *)
Definition env_without_sender : Env :=
  env_of [ ("OPENAI_API_KEY", "sk-test"); ("SENDGRID_API_KEY", "SG.test");
           ("FROM_EMAIL", ""); ("TO_EMAIL", "to@example.com") ]%string.

End Config.

(** ** The agents SDK: [Agent], exceptions, and the results of a run *)

Inductive OutputType : Type := OutStr | OutWebSearchPlan | OutReportData.

(** The type of [result.final_output] for an agent of the given
    [output_type]; an agent declared without one answers with a [str]. *)
Definition final_output_type (o : OutputType) : Type :=
  match o with
  | OutStr => string
  | OutWebSearchPlan => WebSearchPlan
  | OutReportData => ReportData
  end.

Inductive Tool : Type :=
| WebSearchTool (search_context_size : string)
| FunctionTool (tool_name : string).

Record Agent : Type :=
  { name : string;
    instructions : string;
    tools : list Tool;
    model : string;
    tool_choice : option string;
    output_type : OutputType }.

Definition agent_eqb (a b : Agent) : bool := String.eqb (name a) (name b).

(** Instances of Python's [Exception], the class that every [except] clause
    of the package names; [str(e)] is the message. *)
Inductive exn : Type := Exception (msg : string).

Definition str_of_exn (e : exn) : string :=
  match e with Exception msg => msg end.

Definition nl : string := String "010"%char EmptyString.

(** ** [agents/search_agent.py], [agents/writer_agent.py],
       [agents/email_agent.py] *)

Definition SEARCH_INSTRUCTIONS : string :=
  "You are a research assistant. Given a search term, you search the web for that term and produce a concise summary of the results. 

**Requirements:**
- Summary must be 2-3 paragraphs and less than 300 words
- Capture the main points and key insights
- Write succinctly, focus on essential information
- This will be consumed by someone synthesizing a report, so capture the essence and ignore fluff
- Do not include any additional commentary other than the summary itself
- Focus on factual information and avoid speculation

**Format:**
- Start with the most relevant findings
- Include key statistics, dates, or facts if available
- End with any important conclusions or implications".

Definition search_agent : Agent :=
  {| name := "Search agent";
     instructions := SEARCH_INSTRUCTIONS;
     tools := [WebSearchTool "low"];
     model := "gpt-4o-mini";
     tool_choice := Some "required"%string;
     output_type := OutStr |}.

Definition WRITER_INSTRUCTIONS : string :=
  "You are a senior researcher tasked with writing a cohesive report for a research query. You will be provided with the original query and initial research done by a research assistant.

**Process:**
1. First, analyze the research findings and create an outline for the report
2. Structure the report with clear sections and logical flow
3. Generate a comprehensive, detailed report based on the findings

**Report Requirements:**
- **Length**: 5-10 pages of content, at least 1000 words
- **Format**: Markdown format with proper headings, lists, and formatting
- **Structure**: Include introduction, main sections, conclusion, and recommendations
- **Quality**: Professional, well-researched, and thoroughly analyzed
- **Sources**: Reference the research findings appropriately
- **Follow-up**: Suggest 3-5 relevant topics for further research

**Content Guidelines:**
- Start with an executive summary
- Present findings in logical, well-organized sections
- Include relevant statistics, examples, and evidence
- Provide balanced analysis with multiple perspectives
- End with actionable conclusions and recommendations
- Include a list of follow-up research questions".

Definition writer_agent : Agent :=
  {| name := "WriterAgent";
     instructions := WRITER_INSTRUCTIONS;
     tools := [];
     model := "gpt-4o-mini";
     tool_choice := None;
     output_type := OutReportData |}.

Definition EMAIL_INSTRUCTIONS : string :=
  "You are able to send a nicely formatted HTML email based on a detailed report.

**Process:**
1. Analyze the provided research report
2. Create an appropriate subject line that captures the main topic
3. Convert the markdown report into clean, well-presented HTML
4. Use your tool to send the email

**Email Guidelines:**
- **Subject**: Clear, concise, and descriptive (max 100 characters)
- **Format**: Professional HTML with proper structure
- **Content**: Include the full report with proper formatting
- **Style**: Clean, readable, and professional appearance
- **Length**: Include the complete report content

**HTML Formatting:**
- Use proper HTML tags (h1, h2, h3, p, ul, ol, etc.)
- Ensure good readability with appropriate spacing
- Use consistent formatting throughout
- Include a brief introduction before the main content".

Definition email_agent : Agent :=
  {| name := "Email agent";
     instructions := EMAIL_INSTRUCTIONS;
     tools := [FunctionTool "send_email"];
     model := "gpt-4o-mini";
     tool_choice := None;
     output_type := OutStr |}.

(** ** Observable events of a run

    What a coroutine of the package does besides computing its value: it
    yields a string to its caller, writes a log record, enters or leaves the
    tracing context, calls [Runner.run], or creates an asyncio task. *)

Inductive Level : Type := DEBUG | INFO | WARNING | ERROR.

Inductive Event : Type :=
| Yield (chunk : string)
| Log (level : Level) (message : string)
| TraceEnter (workflow trace_id : string)
| TraceExit
| RunnerRun (agent : Agent) (input : string)
| CreateTask (item : WebSearchItem).

(** A finished search task: the item it was created for and what awaiting
    it gives, a raised exception or the value of [search]. *)
Record Task : Type :=
  { task_item : WebSearchItem;
    task_outcome : exn + option string }.

Fixpoint yields (evs : list Event) : list string :=
  match evs with
  | [] => []
  | Yield s :: rest => s :: yields rest
  | _ :: rest => yields rest
  end.

Fixpoint runner_calls (evs : list Event) : list (Agent * string) :=
  match evs with
  | [] => []
  | RunnerRun a input :: rest => (a, input) :: runner_calls rest
  | _ :: rest => runner_calls rest
  end.

Fixpoint tasks_created (evs : list Event) : list WebSearchItem :=
  match evs with
  | [] => []
  | CreateTask item :: rest => item :: tasks_created rest
  | _ :: rest => tasks_created rest
  end.

Definition is_log (e : Event) : Prop :=
  match e with Log _ _ => True | _ => False end.

(** The values that are not [None] among what the searches returned. *)
Fixpoint successes (outs : list (option string)) : list string :=
  match outs with
  | [] => []
  | Some r :: rest => r :: successes rest
  | None :: rest => successes rest
  end.

Definition returned (t : Task) : option string :=
  match task_outcome t with
  | inr (Some r) => Some r
  | _ => None
  end.

(** The order of the pipeline as an automaton over the agents called: the
    planner, any number of searches, the writer, the mailer; every prefix of
    such a sequence is accepted. *)
Inductive Stage : Type := Planning | Searching | Emailing | Done.

Definition stage_step (st : Stage) (a : Agent) : option Stage :=
  match st with
  | Planning => if String.eqb (name a) "PlannerAgent" then Some Searching else None
  | Searching =>
      if String.eqb (name a) "Search agent" then Some Searching
      else if String.eqb (name a) "WriterAgent" then Some Emailing
      else None
  | Emailing => if String.eqb (name a) "Email agent" then Some Done else None
  | Done => None
  end.

Fixpoint in_pipeline_order (st : Stage) (agents : list Agent) : bool :=
  match agents with
  | [] => true
  | a :: rest =>
      match stage_step st a with
      | Some st' => in_pipeline_order st' rest
      | None => false
      end
  end.

(** An instance of [ResearchManager]: its [config] attribute (the logger
    is the class property of [LoggerMixin], not instance data). *)
Record ResearchManager : Type :=
  { config_of : AppConfig }.

(** ** A scripted runner

    A stand-in for the remote services, in the manner of the mocks of
    [tests/test_research_manager.py]: the world counts the agent runs made so
    far, the planner answers with three searches, a search whose input
    mentions [outage] raises, and tasks complete in the reverse of the order
    in which they were created. *)

Module Scripted.

Definition World : Type := nat.

Definition plan : WebSearchPlan :=
  {| searches :=
       [ {| reason := "background"; query := "rocq history" |};
         {| reason := "availability"; query := "outage report" |};
         {| reason := "tooling"; query := "proof assistants" |} ] |}.

Definition report : ReportData :=
  {| short_summary := "Two sources were read.";
     markdown_report := "# Findings";
     follow_up_questions := ["What next?"%string] |}.

Definition answer (o : OutputType) (input : string) (w : World)
  : exn + final_output_type o :=
  match o return exn + final_output_type o with
  | OutWebSearchPlan => inr plan
  | OutReportData => inr report
  | OutStr =>
      if Py.contains input "outage" then inl (Exception "HTTP 503")
      else inr ("summary #" ++ Py.str_of_nat w)%string
  end.

Definition Runner_run (a : Agent) (input : string) (w : World)
  : World * (exn + final_output_type (output_type a)) :=
  (S w, answer (output_type a) input w).

Definition gen_trace_id (w : World) : World * string :=
  (w, "trace_0123"%string).

Definition Time : Type := nat.
Definition loop_time (w : World) : Time := w.
Definition format_elapsed (t0 t1 : Time) : string :=
  (Py.str_of_nat (t1 - t0) ++ ".0s")%string.

Definition as_completed (w : World) (tasks : list Task) : list Task :=
  rev tasks.

Definition config : AppConfig :=
  {| openai_api_key := "sk-test";
     email_config :=
       {| sendgrid_api_key := "SG.test";
          from_email := "from@example.com";
          to_email := "to@example.com" |};
     log_level := default_log_level;
     max_searches := default_max_searches |}.

Definition get_config (w : World) : exn + AppConfig := inr config.

Definition manager : ResearchManager := {| config_of := config |}.

(** A runner for which every service is down. *)
Definition Runner_down (a : Agent) (input : string) (w : World)
  : World * (exn + final_output_type (output_type a)) :=
  (S w, inl (Exception "HTTP 503")).

(** A plan with one search more than [default_max_searches]. *)
Definition long_plan : WebSearchPlan :=
  plan_of_pairs
    [ ("q1", "r1"); ("q2", "r2"); ("q3", "r3");
      ("q4", "r4"); ("q5", "r5"); ("q6", "r6") ]%string.

End Scripted.

(** ** [core/research_manager.py] and [main.py] *)

Section Pipeline.

(** The state of everything outside the process: the model service, the
    web, the mail provider, the clock. *)
Variable World : Type.

(** [await Runner.run(agent, input)]: the run either raises or produces a
    final output of the agent's output type, and moves the world on. *)
Variable Runner_run :
  forall a : Agent, string -> World ->
                    World * (exn + final_output_type (output_type a)).

(** [gen_trace_id()] of the agents SDK. *)
Variable gen_trace_id : World -> World * string.

(** [asyncio.get_event_loop().time()], and [format_duration] applied to
    the difference of two readings (floating point, kept abstract). *)
Variable Time : Type.
Variable loop_time : World -> Time.
Variable format_elapsed : Time -> Time -> string.

(** [asyncio.as_completed(tasks)]: the tasks in the order in which they
    finish, which is any order the event loop and the network produce. *)
Variable as_completed : World -> list Task -> list Task.
Hypothesis as_completed_perm :
  forall w tasks, Permutation (as_completed w tasks) tasks.

(** [get_config()] of [utils/config.py]: reads the environment, and
    raises [ValueError] when a required variable is missing. *)
Variable get_config : World -> exn + AppConfig.

(** The configuration read when [agents/planner_agent.py] is imported. *)
Variable config : AppConfig.

(** The message of the [AttributeError] raised on assigning to a property
    without a setter (its wording depends on the interpreter version). *)
Variable no_setter_message : string.

(** *** Coroutines and generators as a monad

    A computation runs from a world to the events it produced, the world
    it left, and either the exception it raised or its value. *)

Definition Outcome (A : Type) : Type := (list Event * World * (exn + A))%type.

Definition M (A : Type) : Type := World -> Outcome A.

Definition events_of {A : Type} (o : Outcome A) : list Event := fst (fst o).
Definition world_of {A : Type} (o : Outcome A) : World := snd (fst o).
Definition value_of {A : Type} (o : Outcome A) : exn + A := snd o.

Definition ret {A : Type} (a : A) : M A := fun w => ([], w, inr a).

Definition bind {A B : Type} (m : M A) (f : A -> M B) : M B :=
  fun w =>
    match m w with
    | (ev, w1, inl e) => (ev, w1, inl e)
    | (ev, w1, inr a) =>
        match f a w1 with
        | (ev', w2, r) => (ev ++ ev', w2, r)
        end
    end.

Definition raise {A : Type} (e : exn) : M A := fun w => ([], w, inl e).

(** [try: m  except Exception as e: handler e] *)
Definition try_except {A : Type} (m : M A) (handler : exn -> M A) : M A :=
  fun w =>
    match m w with
    | (ev, w1, inl e) =>
        match handler e w1 with
        | (ev', w2, r) => (ev ++ ev', w2, r)
        end
    | (ev, w1, inr a) => (ev, w1, inr a)
    end.

Definition emit (e : Event) : M unit := fun w => ([e], w, inr tt).

Local Notation "x <- m ;; k" := (bind m (fun x => k))
  (at level 61, m at next level, right associativity).
Local Notation "m ;; k" := (bind m (fun _ => k))
  (at level 61, right associativity).

Definition yield (chunk : string) : M unit := emit (Yield chunk).
Definition log (level : Level) (message : string) : M unit :=
  emit (Log level message).

Definition now : M Time := fun w => ([], w, inr (loop_time w)).

Definition new_trace_id : M string :=
  fun w => match gen_trace_id w with (w', tid) => ([], w', inr tid) end.

(** [with trace(workflow, trace_id=trace_id): body] *)
Definition with_trace {A : Type} (workflow trace_id : string) (body : M A)
  : M A :=
  fun w =>
    match body w with
    | (ev, w1, r) => (TraceEnter workflow trace_id :: ev ++ [TraceExit], w1, r)
    end.

(** [await Runner.run(agent, input)] *)
Definition Runner_run_M (a : Agent) (input : string)
  : M (final_output_type (output_type a)) :=
  fun w =>
    match Runner_run a input w with
    | (w', r) => ([RunnerRun a input], w', r)
    end.

(** *** [agents/planner_agent.py] *)

Definition HOW_MANY_SEARCHES : Z := max_searches config.

Definition PLANNER_INSTRUCTIONS : string :=
  "You are a helpful research assistant. Given a query, come up with a set of web searches to perform to best answer the query. Output "
  ++ Py.str_of_Z HOW_MANY_SEARCHES ++
  " terms to query for.

Your searches should be:
1. **Comprehensive** - Cover different aspects of the topic
2. **Specific** - Use precise search terms for better results
3. **Diverse** - Include different perspectives and sources
4. **Relevant** - Directly related to the research query

For each search, provide a clear reason explaining why this search is important to understanding the query.".

Definition planner_agent : Agent :=
  {| name := "PlannerAgent";
     instructions := PLANNER_INSTRUCTIONS;
     tools := [];
     model := "gpt-4o-mini";
     tool_choice := None;
     output_type := OutWebSearchPlan |}.

Definition planner_call (query : string) : Agent * string :=
  (planner_agent, ("Query: " ++ query)%string).

(** *** [ResearchManager] *)

(** [__init__]: the class inherits the read-only property [logger] from
    [LoggerMixin], so the assignment to [self.logger] raises once the
    configuration has been read. *)
Definition ResearchManager_init : M ResearchManager :=
  fun w =>
    match get_config w with
    | inl e => ([], w, inl e)
    | inr _ => ([], w, inl (Exception no_setter_message))
    end.

Definition plan_searches (self : ResearchManager) (query : string)
  : M WebSearchPlan :=
  log INFO "Planning searches..." ;;
  try_except
    (result <- Runner_run_M planner_agent ("Query: " ++ query) ;;
     let search_plan : WebSearchPlan := result in
     log INFO ("Planned " ++ Py.str_of_nat (List.length (searches search_plan))
               ++ " searches") ;;
     ret search_plan)
    (fun e =>
       log ERROR ("Error planning searches: " ++ str_of_exn e) ;;
       raise e).

Definition search_input (item : WebSearchItem) : string :=
  "Search term: " ++ query item ++ nl ++ "Reason for searching: " ++ reason item.

Definition search_call (item : WebSearchItem) : Agent * string :=
  (search_agent, search_input item).

Definition search (self : ResearchManager) (item : WebSearchItem)
  : M (option string) :=
  let input_text := search_input item in
  try_except
    (log DEBUG ("Searching: " ++ query item) ;;
     result <- Runner_run_M search_agent input_text ;;
     ret (Some (result : string)))
    (fun e =>
       log ERROR ("Search failed for '" ++ query item ++ "': " ++ str_of_exn e) ;;
       ret None).

(** What [search] returns for each item of a list, the searches started
    one after the other in the order of the list. *)
Fixpoint search_each (self : ResearchManager) (items : list WebSearchItem)
         (w : World) : list (option string) :=
  match items with
  | [] => []
  | item :: rest =>
      match search self item w with
      | (_, w1, inr o) => o :: search_each self rest w1
      | (_, w1, inl _) => None :: search_each self rest w1
      end
  end.

(** The bodies of the tasks, started in the order of their creation; a
    task keeps what its coroutine returned or raised until it is awaited. *)
Fixpoint run_tasks (self : ResearchManager) (items : list WebSearchItem)
  : M (list Task) :=
  match items with
  | [] => ret []
  | item :: rest =>
      fun w =>
        match search self item w with
        | (ev, w1, r) =>
            match run_tasks self rest w1 with
            | (ev', w2, inr ts) =>
                (ev ++ ev', w2,
                 inr ({| task_item := item; task_outcome := r |} :: ts))
            | (ev', w2, inl e) => (ev ++ ev', w2, inl e)
            end
        end
  end.

Fixpoint emit_all (evs : list Event) : M unit :=
  match evs with
  | [] => ret tt
  | e :: rest => emit e ;; emit_all rest
  end.

(** The loop [for task in asyncio.as_completed(tasks)], over the tasks in
    completion order. *)
Fixpoint gather (n_tasks : nat) (completed : list Task)
         (num_completed : nat) (results : list string) : M (list string) :=
  match completed with
  | [] => ret results
  | task :: rest =>
      match task_outcome task with
      | inr result =>
          let results :=
            match result with
            | Some r => results ++ [r]
            | None => results
            end in
          let num_completed := num_completed + 1 in
          log INFO ("Search progress: " ++ Py.str_of_nat num_completed ++ "/"
                    ++ Py.str_of_nat n_tasks ++ " completed") ;;
          gather n_tasks rest num_completed results
      | inl e =>
          log ERROR ("Error in search task: " ++ str_of_exn e) ;;
          gather n_tasks rest (num_completed + 1) results
      end
  end.

Definition perform_searches (self : ResearchManager)
           (search_plan : WebSearchPlan) : M (list string) :=
  log INFO "Starting searches..." ;;
  match searches search_plan with
  | [] =>
      log WARNING "No searches to perform" ;;
      ret []
  | items =>
      emit_all (map CreateTask items) ;;
      tasks <- run_tasks self items ;;
      results <- (fun w => gather (List.length tasks) (as_completed w tasks) 0 [] w) ;;
      log INFO ("Completed " ++ Py.str_of_nat (List.length results)
                ++ " successful searches") ;;
      ret results
  end.

Definition report_input (query : string) (search_results : list string)
  : string :=
  "Original query: " ++ query ++ nl ++ "Summarized search results: "
  ++ Py.str_of_list search_results.

Definition write_report (self : ResearchManager) (query : string)
           (search_results : list string) : M ReportData :=
  log INFO "Writing report..." ;;
  try_except
    (let input_text := report_input query search_results in
     result <- Runner_run_M writer_agent input_text ;;
     let report : ReportData := result in
     log INFO "Report written successfully" ;;
     ret report)
    (fun e =>
       log ERROR ("Error writing report: " ++ str_of_exn e) ;;
       raise e).

Definition send_email (self : ResearchManager) (report : ReportData)
  : M unit :=
  log INFO "Sending email..." ;;
  try_except
    (result <- Runner_run_M email_agent (markdown_report report) ;;
     log INFO "Email sent successfully")
    (fun e =>
       log ERROR ("Error sending email: " ++ str_of_exn e) ;;
       raise e).

Definition trace_link (trace_id : string) : string :=
  "View trace: https://platform.openai.com/traces/trace?trace_id=" ++ trace_id.

Definition planned_message (search_plan : WebSearchPlan) : string :=
  "Searches planned (" ++ Py.str_of_nat (List.length (searches search_plan))
  ++ " searches), starting to search...".

Definition complete_message (search_results : list string) : string :=
  "Searches complete (" ++ Py.str_of_nat (List.length search_results)
  ++ " results), writing report...".

(** The two characters that open the error chunk in the source file; the
    second lies beyond U+00FF and the mark is kept as the four octets the
    file holds. *)
Definition error_mark : string :=
  String "195"%char (String "162"%char (String "197"%char
    (String "146"%char EmptyString))).

(** The events of [run] around its four stages: what precedes the [try]
    block, what the [except] clause adds, and the tracing context. *)
Definition run_prologue (query trace_id : string) : list Event :=
  [ Log INFO ("Starting research for query: " ++ Py.take 50 query ++ "...");
    Log INFO (trace_link trace_id);
    Yield (trace_link trace_id);
    Yield "Starting research..." ].

Definition run_failure (e : exn) : list Event :=
  [ Log ERROR ("Error during research: " ++ str_of_exn e);
    Yield (error_mark ++ " Error during research: " ++ str_of_exn e) ].

Definition traced (trace_id : string) (evs : list Event) : list Event :=
  TraceEnter "Research trace" trace_id :: evs ++ [TraceExit].

(** The generator [ResearchManager.run], driven to exhaustion. *)
Definition run (self : ResearchManager) (query : string) : M unit :=
  start_time <- now ;;
  trace_id <- new_trace_id ;;
  with_trace "Research trace" trace_id
    (log INFO ("Starting research for query: " ++ Py.take 50 query ++ "...") ;;
     log INFO (trace_link trace_id) ;;
     yield (trace_link trace_id) ;;
     yield "Starting research..." ;;
     try_except
       (search_plan <- plan_searches self query ;;
        yield (planned_message search_plan) ;;
        search_results <- perform_searches self search_plan ;;
        yield (complete_message search_results) ;;
        report <- write_report self query search_results ;;
        yield "Report written, sending email..." ;;
        send_email self report ;;
        yield "Email sent, research complete" ;;
        yield (markdown_report report) ;;
        end_time <- now ;;
        log INFO ("Research completed in " ++ format_elapsed start_time end_time))
       (fun e =>
          log ERROR ("Error during research: " ++ str_of_exn e) ;;
          yield (error_mark ++ " Error during research: " ++ str_of_exn e) ;;
          raise e)).

(** *** [main.py]: the generator [run] *)

Definition main_run (query : string) : M unit :=
  if negb (Py.truthy query) || negb (Py.truthy (Py.strip query)) then
    yield "Please enter a research query."
  else
    let sanitized_query := sanitize_query query in
    if negb (Py.truthy sanitized_query) then
      yield "Invalid query. Please try again."
    else
      try_except
        (self <- ResearchManager_init ;;
         run self sanitized_query)
        (fun e =>
           log ERROR ("Error during research: " ++ str_of_exn e) ;;
           yield ("An error occurred during research: " ++ str_of_exn e)).


(* ================================================================== *)
(** * Part II: properties                                              *)
(* ================================================================== *)

(** Brings nested concatenations of events to right-nested form. *)
Ltac flatten_events :=
repeat (first [rewrite <- app_assoc | progress cbn [app]]).

(** ** Strings *)

Lemma sapp_assoc (a b c : string) : ((a ++ b) ++ c = a ++ (b ++ c))%string.
Proof. induction a as [|x a IH]; simpl; [reflexivity | now rewrite IH]. Qed.

Lemma sapp_nil_r (a : string) : (a ++ "" = a)%string.
Proof. induction a as [|x a IH]; simpl; [reflexivity | now rewrite IH]. Qed.

Lemma occurs_in_refl (w : string) : occurs_in w w.
Proof. exists EmptyString, EmptyString. simpl. now rewrite sapp_nil_r. Qed.

Lemma occurs_in_app_l (w a b : string) :
occurs_in w a -> occurs_in w (a ++ b)%string.
Proof.
intros (pre & post & ->). exists pre, (post ++ b)%string.
now rewrite !sapp_assoc.
Qed.

Lemma occurs_in_app_r (w a b : string) :
occurs_in w b -> occurs_in w (a ++ b)%string.
Proof.
intros (pre & post & ->). exists (a ++ pre)%string, post.
now rewrite !sapp_assoc.
Qed.

Lemma occurs_in_join (sep w : string) (l : list string) :
In w l -> occurs_in w (Py.join sep l).
Proof.
induction l as [|x l IH]; intros Hin; [contradiction|].
destruct l as [|y l].
- destruct Hin as [->|[]]. apply occurs_in_refl.
- change (Py.join sep (x :: y :: l))
    with (x ++ sep ++ Py.join sep (y :: l))%string.
  destruct Hin as [->|Hin].
  + apply occurs_in_app_l, occurs_in_refl.
  + apply occurs_in_app_r, occurs_in_app_r, IH, Hin.
Qed.

Lemma lstrip_blank (s : string) : blank (Py.lstrip s) = blank s.
Proof.
induction s as [|c s IH]; simpl; [reflexivity|].
destruct (Py.isspace c) eqn:Hc; simpl; [exact IH | now rewrite Hc].
Qed.

Lemma rstrip_empty_iff (s : string) :
Py.rstrip s = EmptyString <-> blank s = true.
Proof.
induction s as [|c s IH]; simpl; [tauto|].
destruct (Py.rstrip s) as [|d r]; destruct (Py.isspace c); simpl.
- split; intros _; [apply IH|]; reflexivity.
- split; discriminate.
- split; [discriminate|]. intros H. apply IH in H. discriminate.
- split; discriminate.
Qed.

Lemma strip_empty_iff (s : string) :
Py.strip s = EmptyString <-> blank s = true.
Proof. unfold Py.strip. now rewrite rstrip_empty_iff, lstrip_blank. Qed.

Lemma truthy_false_iff (s : string) : Py.truthy s = false <-> s = EmptyString.
Proof. destruct s; simpl; split; congruence. Qed.

(** ** The event projections *)

Lemma yields_app (a b : list Event) : yields (a ++ b) = yields a ++ yields b.
Proof.
induction a as [|e a IH]; simpl; [reflexivity|].
destruct e; simpl; rewrite ?IH; reflexivity.
Qed.

Lemma runner_calls_app (a b : list Event) :
runner_calls (a ++ b) = runner_calls a ++ runner_calls b.
Proof.
induction a as [|e a IH]; simpl; [reflexivity|].
destruct e; simpl; rewrite ?IH; reflexivity.
Qed.

Lemma tasks_created_app (a b : list Event) :
tasks_created (a ++ b) = tasks_created a ++ tasks_created b.
Proof.
induction a as [|e a IH]; simpl; [reflexivity|].
destruct e; simpl; rewrite ?IH; reflexivity.
Qed.

Lemma tasks_created_map_CreateTask (items : list WebSearchItem) :
tasks_created (map CreateTask items) = items.
Proof. induction items; simpl; congruence. Qed.

Lemma successes_app (a b : list (option string)) :
successes (a ++ b) = successes a ++ successes b.
Proof.
induction a as [|[r|] a IH]; simpl; rewrite ?IH; reflexivity.
Qed.

Lemma successes_length (l : list (option string)) :
List.length (successes l) <= List.length l.
Proof. induction l as [|[r|] l IH]; simpl; lia. Qed.

Lemma successes_perm (l l' : list (option string)) :
Permutation l l' -> Permutation (successes l) (successes l').
Proof.
induction 1 as [| [x|] l l' _ IH | [x|] [y|] l | l l' l'' _ IH1 _ IH2]; simpl;
  auto using Permutation_refl, perm_swap.
eapply Permutation_trans; eassumption.
Qed.

(** ** The stages, one by one *)

(** [search] in closed form: the outcome of the agent run decides between
  the summary and [None]; no exception leaves the coroutine. *)
Lemma search_unfold (self : ResearchManager) (item : WebSearchItem) (w : World) :
search self item w =
match Runner_run search_agent (search_input item) w with
| (w', inr summary) =>
    ([Log DEBUG ("Searching: " ++ query item);
      RunnerRun search_agent (search_input item)], w', inr (Some summary))
| (w', inl e) =>
    ([Log DEBUG ("Searching: " ++ query item);
      RunnerRun search_agent (search_input item);
      Log ERROR ("Search failed for '" ++ query item ++ "': " ++ str_of_exn e)],
     w', inr None)
end.
Proof.
unfold search, try_except, bind, log, emit, ret, Runner_run_M.
destruct (Runner_run search_agent (search_input item) w) as [w' [e|summary]];
  reflexivity.
Qed.

Lemma search_never_raises (self : ResearchManager) (item : WebSearchItem) (w : World) :
exists o, value_of (search self item w) = inr o.
Proof.
rewrite search_unfold.
destruct (Runner_run search_agent (search_input item) w) as [w' [e|summary]];
  eexists; reflexivity.
Qed.

Lemma search_events (self : ResearchManager) (item : WebSearchItem) (w : World) :
runner_calls (events_of (search self item w)) = [search_call item]
/\ yields (events_of (search self item w)) = []
/\ tasks_created (events_of (search self item w)) = [].
Proof.
rewrite search_unfold.
destruct (Runner_run search_agent (search_input item) w) as [w' [e|summary]];
  repeat split; reflexivity.
Qed.

(** The task bodies: one task per item, in the order of the items, none of
  them holding an exception, and one run of the search agent for each. *)
Lemma run_tasks_spec (self : ResearchManager) (items : list WebSearchItem) :
forall w, exists ev w1 tasks,
  run_tasks self items w = (ev, w1, inr tasks)
  /\ map task_item tasks = items
  /\ map task_outcome tasks = map inr (search_each self items w)
  /\ runner_calls ev = map search_call items
  /\ yields ev = []
  /\ tasks_created ev = [].
Proof.
induction items as [|item rest IH]; intros w.
- exists [], w, []. repeat split; reflexivity.
- simpl.
  destruct (search_never_raises self item w) as [o Ho].
  destruct (search_events self item w) as (Hc & Hy & Ht).
  destruct (search self item w) as [[ev0 w0] r0].
  unfold value_of, events_of in *; simpl in *. subst r0.
  destruct (IH w0) as (ev & w1 & tasks & Hrun & Hitems & Hout & Hcalls & Hys & Hts).
  rewrite Hrun.
  exists (ev0 ++ ev), w1, ({| task_item := item; task_outcome := inr o |} :: tasks).
  rewrite runner_calls_app, yields_app, tasks_created_app.
  rewrite Hc, Hy, Ht, Hcalls, Hys, Hts. simpl.
  repeat split; congruence.
Qed.

Lemma only_logs (evs : list Event) :
Forall is_log evs ->
runner_calls evs = [] /\ yields evs = [] /\ tasks_created evs = [].
Proof.
induction 1 as [|e evs He _ IH]; [repeat split; reflexivity|].
destruct e; simpl in He; try contradiction. exact IH.
Qed.

(** The gathering loop appends, in the order it is given the tasks, the
  values that are not [None]; it only logs, and it cannot raise. *)
Lemma gather_spec (n_tasks : nat) (completed : list Task) :
forall num_completed results w, exists ev,
  gather n_tasks completed num_completed results w
  = (ev, w, inr (results ++ successes (map returned completed)))
  /\ Forall is_log ev.
Proof.
induction completed as [|task rest IH]; intros k acc w.
- exists []. simpl. unfold ret. rewrite app_nil_r. split; constructor.
- simpl. unfold returned at 1.
  destruct (task_outcome task) as [e|[r|]]; unfold bind, log, emit;
    match goal with
    | |- context [gather n_tasks rest ?k' ?acc' w] =>
        destruct (IH k' acc' w) as (ev & Hg & Hl); rewrite Hg
    end;
    eexists;
    (split; [simpl; rewrite <- ?app_assoc; reflexivity
            |constructor; [exact I|exact Hl]]).
Qed.

(** [perform_searches] in full: it never raises, creates one task per item
  of the plan, runs the search agent once for each, yields nothing, and
  returns what the finished tasks returned, in completion order. *)
Lemma perform_searches_spec (self : ResearchManager) (search_plan : WebSearchPlan)
    (w : World) :
exists ev w1 results,
  perform_searches self search_plan w = (ev, w1, inr results)
  /\ runner_calls ev = map search_call (searches search_plan)
  /\ tasks_created ev = searches search_plan
  /\ yields ev = []
  /\ exists ev0 tasks,
       run_tasks self (searches search_plan) w = (ev0, w1, inr tasks)
       /\ results =
          match searches search_plan with
          | [] => []
          | _ => successes (map returned (as_completed w1 tasks))
          end.
Proof.
unfold perform_searches.
destruct (searches search_plan) as [|item rest] eqn:Hitems.
- exists [Log INFO "Starting searches..."; Log WARNING "No searches to perform"],
    w, [].
  split; [reflexivity|]. split; [reflexivity|]. split; [reflexivity|].
  split; [reflexivity|].
  exists [], []. split; reflexivity.
- destruct (run_tasks_spec self (item :: rest) w)
    as (ev0 & w1 & tasks & Hrun & Hit & Hout & Hcalls & Hys & Hts).
  destruct (gather_spec (List.length tasks) (as_completed w1 tasks) 0 [] w1)
    as (evg & Hg & Hlogs).
  destruct (only_logs evg Hlogs) as (Hgc & Hgy & Hgt).
  assert (Hem : forall evs w', emit_all evs w' = (evs, w', inr tt)).
  { induction evs as [|e evs IHe]; intros w'; simpl; [reflexivity|].
    unfold bind, emit. rewrite IHe. reflexivity. }
  unfold bind at 1. unfold log at 1, emit at 1.
  unfold bind at 1. rewrite Hem.
  unfold bind at 1. rewrite Hrun.
  unfold bind at 1. rewrite Hg.
  unfold bind, log, emit, ret. simpl.
  eexists; exists w1; eexists. split; [reflexivity|].
  repeat rewrite ?runner_calls_app, ?tasks_created_app, ?yields_app.
  simpl.
  repeat rewrite ?runner_calls_app, ?tasks_created_app, ?yields_app.
  rewrite Hcalls, Hys, Hts, Hgc, Hgy, Hgt.
  assert (Hnc : forall l, runner_calls (map CreateTask l) = []
                          /\ yields (map CreateTask l) = [])
    by (induction l; simpl; auto).
  destruct (Hnc rest) as [Hn1 Hn2].
  rewrite ?Hn1, ?Hn2, ?tasks_created_map_CreateTask. simpl.
  rewrite ?app_nil_r.
  split; [reflexivity|]. split; [reflexivity|]. split; [reflexivity|].
  exists ev0, tasks. split; reflexivity.
Qed.

Lemma plan_searches_unfold (self : ResearchManager) (query : string) (w : World) :
plan_searches self query w =
match Runner_run planner_agent ("Query: " ++ query) w with
| (w', inr search_plan) =>
    ([Log INFO "Planning searches...";
      RunnerRun planner_agent ("Query: " ++ query);
      Log INFO ("Planned "
                ++ Py.str_of_nat (List.length (searches search_plan))
                ++ " searches")], w', inr search_plan)
| (w', inl e) =>
    ([Log INFO "Planning searches...";
      RunnerRun planner_agent ("Query: " ++ query);
      Log ERROR ("Error planning searches: " ++ str_of_exn e)], w', inl e)
end.
Proof.
unfold plan_searches, try_except, bind, log, emit, ret, raise, Runner_run_M.
destruct (Runner_run planner_agent ("Query: " ++ query) w) as [w' [e|search_plan]];
  reflexivity.
Qed.

Lemma write_report_unfold (self : ResearchManager) (query : string)
    (search_results : list string) (w : World) :
write_report self query search_results w =
match Runner_run writer_agent (report_input query search_results) w with
| (w', inr report) =>
    ([Log INFO "Writing report...";
      RunnerRun writer_agent (report_input query search_results);
      Log INFO "Report written successfully"], w', inr report)
| (w', inl e) =>
    ([Log INFO "Writing report...";
      RunnerRun writer_agent (report_input query search_results);
      Log ERROR ("Error writing report: " ++ str_of_exn e)], w', inl e)
end.
Proof.
unfold write_report, try_except, bind, log, emit, ret, raise, Runner_run_M.
destruct (Runner_run writer_agent (report_input query search_results) w)
  as [w' [e|report]]; reflexivity.
Qed.

Lemma send_email_unfold (self : ResearchManager) (report : ReportData) (w : World) :
send_email self report w =
match Runner_run email_agent (markdown_report report) w with
| (w', inr _) =>
    ([Log INFO "Sending email...";
      RunnerRun email_agent (markdown_report report);
      Log INFO "Email sent successfully"], w', inr tt)
| (w', inl e) =>
    ([Log INFO "Sending email...";
      RunnerRun email_agent (markdown_report report);
      Log ERROR ("Error sending email: " ++ str_of_exn e)], w', inl e)
end.
Proof.
unfold send_email, try_except, bind, log, emit, ret, raise, Runner_run_M.
destruct (Runner_run email_agent (markdown_report report) w) as [w' [e|out]];
  reflexivity.
Qed.

Lemma plan_searches_events (self : ResearchManager) (query : string) (w : World) :
runner_calls (events_of (plan_searches self query w)) = [planner_call query]
/\ yields (events_of (plan_searches self query w)) = []
/\ tasks_created (events_of (plan_searches self query w)) = [].
Proof.
rewrite plan_searches_unfold.
destruct (Runner_run planner_agent ("Query: " ++ query) w) as [w' [e|search_plan]];
  repeat split; reflexivity.
Qed.

Lemma write_report_events (self : ResearchManager) (query : string)
    (search_results : list string) (w : World) :
runner_calls (events_of (write_report self query search_results w))
= [(writer_agent, report_input query search_results)]
/\ yields (events_of (write_report self query search_results w)) = []
/\ tasks_created (events_of (write_report self query search_results w)) = [].
Proof.
rewrite write_report_unfold.
destruct (Runner_run writer_agent (report_input query search_results) w)
  as [w' [e|report]]; repeat split; reflexivity.
Qed.

Lemma send_email_events (self : ResearchManager) (report : ReportData) (w : World) :
runner_calls (events_of (send_email self report w))
= [(email_agent, markdown_report report)]
/\ yields (events_of (send_email self report w)) = []
/\ tasks_created (events_of (send_email self report w)) = [].
Proof.
rewrite send_email_unfold.
destruct (Runner_run email_agent (markdown_report report) w) as [w' [e|out]];
  repeat split; reflexivity.
Qed.

(** ** The generator [run], case by case *)

Lemma run_cases (self : ResearchManager) (query : string) (w : World) :
match gen_trace_id w with
| (w0, tid) =>
match plan_searches self query w0 with
| (ev1, w1, inl e) =>
    run self query w
    = (traced tid (run_prologue query tid ++ ev1 ++ run_failure e), w1, inl e)
| (ev1, w1, inr search_plan) =>
match perform_searches self search_plan w1 with
| (ev2, w2, inl e) =>
    run self query w
    = (traced tid (run_prologue query tid ++ ev1
                   ++ [Yield (planned_message search_plan)] ++ ev2
                   ++ run_failure e), w2, inl e)
| (ev2, w2, inr search_results) =>
match write_report self query search_results w2 with
| (ev3, w3, inl e) =>
    run self query w
    = (traced tid (run_prologue query tid ++ ev1
                   ++ [Yield (planned_message search_plan)] ++ ev2
                   ++ [Yield (complete_message search_results)] ++ ev3
                   ++ run_failure e), w3, inl e)
| (ev3, w3, inr report) =>
match send_email self report w3 with
| (ev4, w4, inl e) =>
    run self query w
    = (traced tid (run_prologue query tid ++ ev1
                   ++ [Yield (planned_message search_plan)] ++ ev2
                   ++ [Yield (complete_message search_results)] ++ ev3
                   ++ [Yield "Report written, sending email..."] ++ ev4
                   ++ run_failure e), w4, inl e)
| (ev4, w4, inr _) =>
    run self query w
    = (traced tid (run_prologue query tid ++ ev1
                   ++ [Yield (planned_message search_plan)] ++ ev2
                   ++ [Yield (complete_message search_results)] ++ ev3
                   ++ [Yield "Report written, sending email..."] ++ ev4
                   ++ [Yield "Email sent, research complete";
                       Yield (markdown_report report);
                       Log INFO ("Research completed in "
                                 ++ format_elapsed (loop_time w) (loop_time w4))]),
       w4, inr tt)
end end end end end.
Proof.
unfold run, with_trace, try_except, bind, now, new_trace_id, yield, log,
  emit, ret, raise.
cbv beta.
destruct (gen_trace_id w) as [w0 tid]. cbv beta iota.
destruct (plan_searches self query w0) as [[ev1 w1] [e|search_plan]];
  cbv beta iota.
{ unfold traced, run_prologue, run_failure. flatten_events. reflexivity. }
destruct (perform_searches self search_plan w1) as [[ev2 w2] [e|search_results]];
  cbv beta iota.
{ unfold traced, run_prologue, run_failure. flatten_events. reflexivity. }
destruct (write_report self query search_results w2) as [[ev3 w3] [e|report]];
  cbv beta iota.
{ unfold traced, run_prologue, run_failure. flatten_events. reflexivity. }
destruct (send_email self report w3) as [[ev4 w4] [e|[]]]; cbv beta iota.
{ unfold traced, run_prologue, run_failure. flatten_events. reflexivity. }
unfold traced, run_prologue. flatten_events. reflexivity.
Qed.


(** ** Searches: failure, fan-out, gathering *)

Lemma returned_of_outcomes (tasks : list Task) :
forall outs, map task_outcome tasks = map inr outs -> map returned tasks = outs.
Proof.
induction tasks as [|t tasks IH]; intros [|o outs] H; simpl in *;
  try discriminate; [reflexivity|].
injection H as Ht Hrest. unfold returned at 1. rewrite Ht.
rewrite (IH outs Hrest). destruct o; reflexivity.
Qed.

(** C2. A failed search is caught and logged, not propagated: when the run
  of the search agent raises, [search] logs the error and returns [None];
  [perform_searches] never raises, and what it returns is, up to the order
  of completion, the list of the values other than [None] that the
  searches of the plan returned, hence no longer than the plan. *)
Theorem search_failure_caught_and_logged :
(forall self item w w' e,
    Runner_run search_agent (search_input item) w = (w', inl e) ->
    value_of (search self item w) = inr None
    /\ In (Log ERROR ("Search failed for '" ++ query item ++ "': "
                       ++ str_of_exn e))
          (events_of (search self item w)))
/\ (forall self search_plan w,
      exists results,
        value_of (perform_searches self search_plan w) = inr results
        /\ Permutation results
              (successes (search_each self (searches search_plan) w))
        /\ List.length results <= List.length (searches search_plan)).
Proof.
split.
- intros self item w w' e Hrun. rewrite search_unfold, Hrun.
  split; [reflexivity|]. simpl. auto.
- intros self search_plan w.
  destruct (perform_searches_spec self search_plan w)
    as (ev & w1 & results & Hperf & _ & _ & _ & ev0 & tasks & Hrun & Hres).
  destruct (run_tasks_spec self (searches search_plan) w)
    as (ev0' & w1' & tasks' & Hrun' & Hitems & Hout & _).
  rewrite Hrun in Hrun'. injection Hrun' as <- <- <-.
  apply returned_of_outcomes in Hout.
  assert (Hperm : Permutation results
                    (successes (search_each self (searches search_plan) w))).
  { rewrite Hres, <- Hout.
    destruct (searches search_plan) as [|item rest] eqn:Hs.
    - destruct tasks; [constructor | discriminate Hitems].
    - apply successes_perm, Permutation_map, as_completed_perm. }
  exists results. rewrite Hperf. split; [reflexivity|]. split; [exact Hperm|].
  rewrite (Permutation_length Hperm).
  etransitivity; [apply successes_length|].
  rewrite <- Hout, length_map, <- Hitems, length_map. reflexivity.
Qed.

Lemma run_tasks_any_self (self self' : ResearchManager)
    (items : list WebSearchItem) :
forall w, run_tasks self' items w = run_tasks self items w.
Proof.
induction items as [|item rest IH]; intros w; simpl; [reflexivity|].
change (search self' item w) with (search self item w).
destruct (search self item w) as [[ev w1] r]. now rewrite IH.
Qed.

Lemma perform_searches_any_self (self self' : ResearchManager)
    (search_plan : WebSearchPlan) (w : World) :
perform_searches self' search_plan w = perform_searches self search_plan w.
Proof.
unfold perform_searches, bind.
destruct (log INFO "Starting searches..." w) as [[ev w0] [e|[]]]; [reflexivity|].
destruct (searches search_plan) as [|item rest]; [reflexivity|].
destruct (emit_all (map CreateTask (item :: rest)) w0) as [[ev1 w1] [e|[]]];
  [reflexivity|].
now rewrite (run_tasks_any_self self self').
Qed.


(** C5. For a plan of n searches [perform_searches] creates n tasks, one for
  each item, and runs the search agent once for each; a task holds what
  the search of its own item returned; the results are appended in the
  order in which the tasks complete, whatever the order of the plan; for
  the empty plan it returns the empty list and creates no task. *)
Theorem perform_searches_gathers_in_completion_order :
forall self search_plan w,
  exists ev w1 results ev0 tasks,
    perform_searches self search_plan w = (ev, w1, inr results)
    /\ tasks_created ev = searches search_plan
    /\ List.length (tasks_created ev) = List.length (searches search_plan)
    /\ runner_calls ev
       = map (fun item => (search_agent, search_input item)) (searches search_plan)
    /\ run_tasks self (searches search_plan) w = (ev0, w1, inr tasks)
    /\ map task_item tasks = searches search_plan
    /\ map task_outcome tasks
       = map inr (search_each self (searches search_plan) w)
    /\ (searches search_plan <> [] ->
        results = successes (map returned (as_completed w1 tasks)))
    /\ (searches search_plan = [] ->
        results = [] /\ tasks_created ev = [] /\ runner_calls ev = []).
Proof.
intros self search_plan w.
destruct (perform_searches_spec self search_plan w)
  as (ev & w1 & results & Hperf & Hcalls & Htasks & _ & ev0 & tasks & Hrun & Hres).
destruct (run_tasks_spec self (searches search_plan) w)
  as (ev0' & w1' & tasks' & Hrun' & Hitems & Hout & _).
rewrite Hrun in Hrun'. injection Hrun' as <- <- <-.
exists ev, w1, results, ev0, tasks.
split; [exact Hperf|]. split; [exact Htasks|].
split; [now rewrite Htasks|]. split; [exact Hcalls|].
split; [exact Hrun|]. split; [exact Hitems|]. split; [exact Hout|].
split.
- intros Hne. rewrite Hres.
  destruct (searches search_plan); [contradiction | reflexivity].
- intros Hnil. rewrite Hres, Htasks, Hcalls, Hnil. auto.
Qed.

(** ** Planning and writing *)

Lemma plan_of_pairs_pairs (search_plan : WebSearchPlan) :
plan_of_pairs (plan_pairs search_plan) = search_plan.
Proof.
destruct search_plan as [items]. unfold plan_of_pairs, plan_pairs. simpl.
f_equal. rewrite map_map.
induction items as [|[r x] items IH]; simpl; [reflexivity | now rewrite IH].
Qed.

(** C6. [plan_searches] runs one agent, the planner, once, on the query; it
  returns what that run produced, a plan, and a plan is the ordered list
  of its (query, rationale) pairs. *)
Theorem plan_searches_one_call :
forall self q w,
  runner_calls (events_of (plan_searches self q w))
  = [(planner_agent, ("Query: " ++ q)%string)]
  /\ value_of (plan_searches self q w)
     = snd (Runner_run planner_agent ("Query: " ++ q) w)
  /\ world_of (plan_searches self q w)
     = fst (Runner_run planner_agent ("Query: " ++ q) w)
  /\ forall search_plan : WebSearchPlan,
       value_of (plan_searches self q w) = inr search_plan ->
       search_plan = plan_of_pairs (plan_pairs search_plan)
       /\ plan_pairs search_plan
          = map (fun item => (query item, reason item)) (searches search_plan).
Proof.
intros self q w. rewrite plan_searches_unfold.
destruct (Runner_run planner_agent ("Query: " ++ q) w) as [w' [e|search_plan]];
  (split; [reflexivity|]); (split; [reflexivity|]); (split; [reflexivity|]);
  intros p Hp; (split; [|reflexivity]); symmetry; apply plan_of_pairs_pairs.
Qed.

(** C7. [write_report] runs one agent, the writer, once; the input of that
  run is built from the query and the list of all the summaries, so the
  query and the [repr] of every summary occur in it; it returns what the
  run produced, a report with a summary, a markdown body and follow-up
  questions. *)
Theorem write_report_one_call :
forall self query search_results w,
  runner_calls (events_of (write_report self query search_results w))
  = [(writer_agent, report_input query search_results)]
  /\ report_input query search_results
     = ("Original query: " ++ query ++ nl ++ "Summarized search results: "
        ++ "[" ++ Py.join ", " (map Py.repr_str search_results) ++ "]")%string
  /\ occurs_in query (report_input query search_results)
  /\ (forall summary, In summary search_results ->
                      occurs_in (Py.repr_str summary)
                                (report_input query search_results))
  /\ value_of (write_report self query search_results w)
     = snd (Runner_run writer_agent (report_input query search_results) w)
  /\ forall report : ReportData,
       value_of (write_report self query search_results w) = inr report ->
       report = {| short_summary := short_summary report;
                   markdown_report := markdown_report report;
                   follow_up_questions := follow_up_questions report |}.
Proof.
intros self q results w.
split; [apply write_report_events|].
split; [reflexivity|].
split; [unfold report_input; apply occurs_in_app_r, occurs_in_app_l,
        occurs_in_refl|].
split.
{ intros summary Hin. unfold report_input, Py.str_of_list.
  do 5 apply occurs_in_app_r. apply occurs_in_app_l.
  apply occurs_in_join, in_map, Hin. }
split.
{ rewrite write_report_unfold.
  destruct (Runner_run writer_agent (report_input q results) w) as [w' [e|r]];
    reflexivity. }
intros [s m f] _. reflexivity.
Qed.

(** ** The whole run *)

Lemma projections_traced (tid : string) (evs : list Event) :
runner_calls (traced tid evs) = runner_calls evs
/\ yields (traced tid evs) = yields evs.
Proof.
unfold traced. simpl. rewrite runner_calls_app, yields_app. simpl.
now rewrite !app_nil_r.
Qed.

Lemma stage_events_of {A : Type} (m : M A) (w : World) (P : list Event -> Prop)
    (ev : list Event) (w' : World) (r : exn + A) :
P (events_of (m w)) -> m w = (ev, w', r) -> P ev.
Proof. intros H E. now rewrite E in H. Qed.

(** A run that ends without raising went through the four stages in order,
  each started in the world the previous one left and fed with what the
  previous one returned. *)
Lemma run_success (self : ResearchManager) (query : string) (w : World) :
value_of (run self query w) = inr tt ->
exists tid w0 ev1 w1 search_plan ev2 w2 search_results ev3 w3 report ev4 w4,
  gen_trace_id w = (w0, tid)
  /\ plan_searches self query w0 = (ev1, w1, inr search_plan)
  /\ perform_searches self search_plan w1 = (ev2, w2, inr search_results)
  /\ write_report self query search_results w2 = (ev3, w3, inr report)
  /\ send_email self report w3 = (ev4, w4, inr tt)
  /\ run self query w
     = (traced tid (run_prologue query tid ++ ev1
                    ++ [Yield (planned_message search_plan)] ++ ev2
                    ++ [Yield (complete_message search_results)] ++ ev3
                    ++ [Yield "Report written, sending email..."] ++ ev4
                    ++ [Yield "Email sent, research complete";
                        Yield (markdown_report report);
                        Log INFO ("Research completed in "
                                  ++ format_elapsed (loop_time w) (loop_time w4))]),
        w4, inr tt).
Proof.
intros Hok. pose proof (run_cases self query w) as H.
destruct (gen_trace_id w) as [w0 tid] eqn:E0.
destruct (plan_searches self query w0) as [[ev1 w1] [e|search_plan]] eqn:E1;
  [rewrite H in Hok; discriminate Hok|].
destruct (perform_searches self search_plan w1)
  as [[ev2 w2] [e|search_results]] eqn:E2;
  [rewrite H in Hok; discriminate Hok|].
destruct (write_report self query search_results w2)
  as [[ev3 w3] [e|report]] eqn:E3;
  [rewrite H in Hok; discriminate Hok|].
destruct (send_email self report w3) as [[ev4 w4] [e|[]]] eqn:E4;
  [rewrite H in Hok; discriminate Hok|].
exists tid, w0, ev1, w1, search_plan, ev2, w2, search_results, ev3, w3, report,
  ev4, w4.
split; [reflexivity|]. do 4 (split; [assumption|]). exact H.
Qed.

Lemma pipeline_searches (items : list WebSearchItem) (rest : list (Agent * string)) :
in_pipeline_order Searching (map fst (map search_call items ++ rest))
= in_pipeline_order Searching (map fst rest).
Proof. induction items as [|item items IH]; simpl; [reflexivity | exact IH]. Qed.

(** Whatever happens, the agents are run in the order of the pipeline. *)
Lemma run_calls_in_order (self : ResearchManager) (query : string) (w : World) :
in_pipeline_order Planning (map fst (runner_calls (events_of (run self query w))))
= true.
Proof.
pose proof (run_cases self query w) as H.
destruct (gen_trace_id w) as [w0 tid].
pose proof (plan_searches_events self query w0) as (P1 & _).
destruct (plan_searches self query w0) as [[ev1 w1] [e|search_plan]];
  unfold events_of in P1; cbn [fst] in P1.
{ rewrite H. unfold events_of. cbn [fst].
  rewrite (proj1 (projections_traced _ _)), !runner_calls_app, P1.
  reflexivity. }
destruct (perform_searches_spec self search_plan w1)
  as (ev2 & w2 & search_results & Hperf & P2 & _).
rewrite Hperf in H.
pose proof (write_report_events self query search_results w2) as (P3 & _).
destruct (write_report self query search_results w2) as [[ev3 w3] [e|report]];
  unfold events_of in P3; cbn [fst] in P3.
{ rewrite H. unfold events_of. cbn [fst].
  rewrite (proj1 (projections_traced _ _)), !runner_calls_app, P1, P2, P3.
  cbn [runner_calls run_prologue run_failure app].
  change (in_pipeline_order Searching
            (map fst (map search_call (searches search_plan)
                      ++ [(writer_agent, report_input query search_results)]))
          = true).
  rewrite pipeline_searches. reflexivity. }
pose proof (send_email_events self report w3) as (P4 & _).
destruct (send_email self report w3) as [[ev4 w4] [e|[]]];
  unfold events_of in P4; cbn [fst] in P4;
  rewrite H; unfold events_of; cbn [fst];
  rewrite (proj1 (projections_traced _ _)), !runner_calls_app, P1, P2, P3, P4;
  cbn [runner_calls run_prologue run_failure app];
  change (in_pipeline_order Searching
            (map fst (map search_call (searches search_plan)
                      ++ [(writer_agent, report_input query search_results);
                          (email_agent, markdown_report report)]))
          = true);
  rewrite pipeline_searches; reflexivity.
Qed.

(** C1. [ResearchManager.run] goes through the four steps in the order plan,
  search, write, send: on every run the agents are called in that order,
  and on a run that ends without raising each stage is started where the
  previous one ended and is given what the previous one returned: the plan
  of [plan_searches] goes to [perform_searches], its list of results, with
  the query, to [write_report], and the [markdown_report] of the report to
  the run of the email agent made by [send_email]. *)
Theorem run_pipeline_in_order :
forall self query w,
  in_pipeline_order Planning
    (map fst (runner_calls (events_of (run self query w)))) = true
  /\ (value_of (run self query w) = inr tt ->
      exists tid w0 ev1 w1 search_plan ev2 w2 search_results ev3 w3 report
             ev4 w4,
        gen_trace_id w = (w0, tid)
        /\ plan_searches self query w0 = (ev1, w1, inr search_plan)
        /\ perform_searches self search_plan w1 = (ev2, w2, inr search_results)
        /\ write_report self query search_results w2 = (ev3, w3, inr report)
        /\ send_email self report w3 = (ev4, w4, inr tt)
        /\ world_of (run self query w) = w4
        /\ runner_calls (events_of (run self query w))
           = (planner_agent, ("Query: " ++ query)%string)
             :: map (fun item => (search_agent, search_input item))
                    (searches search_plan)
             ++ [ (writer_agent, report_input query search_results);
                  (email_agent, markdown_report report) ]).
Proof.
intros self q w. split; [apply run_calls_in_order|].
intros Hok.
destruct (run_success self q w Hok)
  as (tid & w0 & ev1 & w1 & search_plan & ev2 & w2 & search_results & ev3 & w3
      & report & ev4 & w4 & Hid & Hplan & Hperf & Hwrite & Hsend & Hrun).
exists tid, w0, ev1, w1, search_plan, ev2, w2, search_results, ev3, w3, report,
  ev4, w4.
repeat (split; [assumption|]).
rewrite Hrun. split; [reflexivity|].
unfold events_of. cbn [fst].
pose proof (stage_events_of _ _ (fun ev => runner_calls ev = _) _ _ _
              (proj1 (plan_searches_events self q w0)) Hplan) as P1.
destruct (perform_searches_spec self search_plan w1)
  as (ev2' & w2' & results' & Hperf' & P2 & _).
rewrite Hperf in Hperf'. injection Hperf' as <- <- <-.
pose proof (stage_events_of _ _ (fun ev => runner_calls ev = _) _ _ _
              (proj1 (write_report_events self q search_results w2)) Hwrite) as P3.
pose proof (stage_events_of _ _ (fun ev => runner_calls ev = _) _ _ _
              (proj1 (send_email_events self report w3)) Hsend) as P4.
cbv beta in P1, P3, P4.
rewrite (proj1 (projections_traced _ _)), !runner_calls_app, P1, P2, P3, P4.
reflexivity.
Qed.

(** C4. A run of [ResearchManager.run] that ends without raising yields
  seven strings, in this order: the trace link, the starting message, the
  message giving the number of searches planned, the message giving the
  number of results, the two messages on the report and the email, and
  last of all the markdown of the report that [write_report] returned. *)
Theorem run_yields_progress_then_report :
forall self query w,
  value_of (run self query w) = inr tt ->
  exists tid w0 ev1 w1 search_plan ev2 w2 search_results ev3 w3 report,
    gen_trace_id w = (w0, tid)
    /\ plan_searches self query w0 = (ev1, w1, inr search_plan)
    /\ perform_searches self search_plan w1 = (ev2, w2, inr search_results)
    /\ write_report self query search_results w2 = (ev3, w3, inr report)
    /\ yields (events_of (run self query w))
       = [ ("View trace: https://platform.openai.com/traces/trace?trace_id="
            ++ tid)%string;
           "Starting research..."%string;
           ("Searches planned ("
            ++ Py.str_of_nat (List.length (searches search_plan))
            ++ " searches), starting to search...")%string;
           ("Searches complete ("
            ++ Py.str_of_nat (List.length search_results)
            ++ " results), writing report...")%string;
           "Report written, sending email..."%string;
           "Email sent, research complete"%string;
           markdown_report report ]
    /\ List.length (yields (events_of (run self query w))) = 7
    /\ last (yields (events_of (run self query w))) EmptyString
       = markdown_report report.
Proof.
intros self q w Hok.
destruct (run_success self q w Hok)
  as (tid & w0 & ev1 & w1 & search_plan & ev2 & w2 & search_results & ev3 & w3
      & report & ev4 & w4 & Hid & Hplan & Hperf & Hwrite & Hsend & Hrun).
exists tid, w0, ev1, w1, search_plan, ev2, w2, search_results, ev3, w3, report.
repeat (split; [assumption|]).
pose proof (stage_events_of _ _ (fun ev => yields ev = _) _ _ _
              (proj1 (proj2 (plan_searches_events self q w0))) Hplan) as P1.
destruct (perform_searches_spec self search_plan w1)
  as (ev2' & w2' & results' & Hperf' & _ & _ & P2 & _).
rewrite Hperf in Hperf'. injection Hperf' as <- <- <-.
pose proof (stage_events_of _ _ (fun ev => yields ev = _) _ _ _
              (proj1 (proj2 (write_report_events self q search_results w2)))
              Hwrite) as P3.
pose proof (stage_events_of _ _ (fun ev => yields ev = _) _ _ _
              (proj1 (proj2 (send_email_events self report w3))) Hsend) as P4.
cbv beta in P1, P3, P4.
assert (Hy : yields (events_of (run self q w))
             = [ trace_link tid; "Starting research..."%string;
                 planned_message search_plan; complete_message search_results;
                 "Report written, sending email..."%string;
                 "Email sent, research complete"%string;
                 markdown_report report ]).
{ rewrite Hrun. unfold events_of. cbn [fst].
  rewrite (proj2 (projections_traced _ _)), !yields_app, P1, P2, P3, P4.
  reflexivity. }
rewrite Hy. split; [reflexivity|]. split; reflexivity.
Qed.

(** ** The entry point *)


(** ** Further properties of the pipeline *)

(** Refutes the membership [H] of an event in a list of events of other
    kinds, leaving the sublists it cannot look into. *)
Ltac no_such_event H :=
  repeat match type of H with
         | _ \/ _ => destruct H as [H|H]
         | In _ (_ ++ _) => apply in_app_or in H
         | In _ (map CreateTask _) =>
             let Hx := fresh in
             apply in_map_iff in H as (? & Hx & _); discriminate Hx
         | In _ (_ :: _) => apply in_inv in H
         | In _ [] => contradiction
         | False => contradiction
         | _ = _ => discriminate H
         end.

Lemma yields_traced_run (tid query : string) (evs : list Event) :
  yields (traced tid (run_prologue query tid ++ evs))
  = trace_link tid :: "Starting research..."%string :: yields evs.
Proof.
  rewrite (proj2 (projections_traced _ _)), yields_app. reflexivity.
Qed.

Lemma perform_searches_never_raises (self : ResearchManager)
    (search_plan : WebSearchPlan) (w : World) (ev : list Event) (w' : World)
    (e : exn) :
  perform_searches self search_plan w <> (ev, w', inl e).
Proof.
  destruct (perform_searches_spec self search_plan w)
    as (ev2 & w2 & results & Hperf & _).
  rewrite Hperf. discriminate.
Qed.

(** X1. When [ResearchManager.run] raises, the exception is the one a stage
    raised, and the chunks tell how far the run got: a failure of planning
    gives the two opening chunks and the error chunk, a failure of writing
    adds the two messages on the searches before the error chunk, a failure
    of mailing adds the message that the report was written.  The error
    chunk is always last, and no other case exists: searching cannot make
    the run fail. *)
Theorem run_failure_is_yielded_last :
forall self query w e,
  value_of (run self query w) = inl e ->
  exists tid w0,
    gen_trace_id w = (w0, tid)
    /\ ((exists ev1 w1,
           plan_searches self query w0 = (ev1, w1, inl e)
           /\ yields (events_of (run self query w))
              = [ trace_link tid; "Starting research..."%string;
                  (error_mark ++ " Error during research: " ++ str_of_exn e)%string ])
        \/ (exists ev1 w1 search_plan ev2 w2 search_results ev3 w3,
              plan_searches self query w0 = (ev1, w1, inr search_plan)
              /\ perform_searches self search_plan w1 = (ev2, w2, inr search_results)
              /\ write_report self query search_results w2 = (ev3, w3, inl e)
              /\ yields (events_of (run self query w))
                 = [ trace_link tid; "Starting research..."%string;
                     planned_message search_plan;
                     complete_message search_results;
                     (error_mark ++ " Error during research: " ++ str_of_exn e)%string ])
        \/ (exists ev1 w1 search_plan ev2 w2 search_results ev3 w3 report ev4 w4,
              plan_searches self query w0 = (ev1, w1, inr search_plan)
              /\ perform_searches self search_plan w1 = (ev2, w2, inr search_results)
              /\ write_report self query search_results w2 = (ev3, w3, inr report)
              /\ send_email self report w3 = (ev4, w4, inl e)
              /\ yields (events_of (run self query w))
                 = [ trace_link tid; "Starting research..."%string;
                     planned_message search_plan;
                     complete_message search_results;
                     "Report written, sending email..."%string;
                     (error_mark ++ " Error during research: " ++ str_of_exn e)%string ])).
Proof.
intros self q w e Hfail. pose proof (run_cases self q w) as H.
destruct (gen_trace_id w) as [w0 tid] eqn:E0. exists tid, w0.
split; [reflexivity|].
pose proof (plan_searches_events self q w0) as (_ & P1 & _).
destruct (plan_searches self q w0) as [[ev1 w1] [e1|search_plan]] eqn:E1;
  unfold events_of in P1; cbn [fst] in P1.
{ left. exists ev1, w1. rewrite H in Hfail |- *.
  unfold value_of in Hfail. cbn [snd] in Hfail. injection Hfail as ->.
  split; [reflexivity|]. unfold events_of. cbn [fst].
  rewrite yields_traced_run, yields_app, P1. reflexivity. }
destruct (perform_searches_spec self search_plan w1)
  as (ev2 & w2 & search_results & Hperf & _ & _ & P2 & _).
rewrite Hperf in H.
pose proof (write_report_events self q search_results w2) as (_ & P3 & _).
destruct (write_report self q search_results w2) as [[ev3 w3] [e3|report]] eqn:E3;
  unfold events_of in P3; cbn [fst] in P3.
{ right. left. exists ev1, w1, search_plan, ev2, w2, search_results, ev3, w3.
  rewrite H in Hfail |- *.
  unfold value_of in Hfail. cbn [snd] in Hfail. injection Hfail as ->.
  do 3 (split; [reflexivity || assumption|]). unfold events_of. cbn [fst].
  rewrite yields_traced_run, !yields_app, P1, P2, P3. reflexivity. }
pose proof (send_email_events self report w3) as (_ & P4 & _).
destruct (send_email self report w3) as [[ev4 w4] [e4|[]]] eqn:E4;
  unfold events_of in P4; cbn [fst] in P4.
{ right. right.
  exists ev1, w1, search_plan, ev2, w2, search_results, ev3, w3, report, ev4, w4.
  rewrite H in Hfail |- *.
  unfold value_of in Hfail. cbn [snd] in Hfail. injection Hfail as ->.
  do 4 (split; [reflexivity || assumption|]). unfold events_of. cbn [fst].
  rewrite yields_traced_run, !yields_app, P1, P2, P3, P4. reflexivity. }
rewrite H in Hfail. discriminate Hfail.
Qed.

(** X2. [search] returns a summary exactly when the run of the search agent
    ends normally, and then it is the final output of that run; it returns
    [None] exactly when the run raises.  In both cases the world is the one
    the run left. *)
Theorem search_returns_what_the_agent_returned :
forall self item w,
  (forall summary,
      value_of (search self item w) = inr (Some summary)
      <-> snd (Runner_run search_agent (search_input item) w) = inr summary)
  /\ (value_of (search self item w) = inr None
      <-> exists e, snd (Runner_run search_agent (search_input item) w) = inl e)
  /\ world_of (search self item w)
     = fst (Runner_run search_agent (search_input item) w).
Proof.
intros self item w. rewrite search_unfold.
destruct (Runner_run search_agent (search_input item) w) as [w' [e|summary]];
  unfold value_of, world_of; cbn [fst snd].
- split; [|split; [|reflexivity]].
  + intros s. split; discriminate.
  + split; [intros _; exists e; reflexivity | reflexivity].
- split; [|split; [|reflexivity]].
  + intros s. split; intros Heq; injection Heq as ->; reflexivity.
  + split; [discriminate | intros [e He]; discriminate He].
Qed.

(** X3. [perform_searches] returns as many results as there are searches of
    the plan that did not fail; when none fails there is one result for each
    search of the plan. *)
Theorem perform_searches_counts_successes :
forall self search_plan w results,
  value_of (perform_searches self search_plan w) = inr results ->
  List.length results
  = List.length (successes (search_each self (searches search_plan) w))
  /\ (~ In None (search_each self (searches search_plan) w) ->
      List.length results = List.length (searches search_plan)).
Proof using as_completed_perm.
clear gen_trace_id loop_time format_elapsed Time get_config config
  no_setter_message.
intros self search_plan w results Hval.
destruct (perform_searches_spec self search_plan w)
  as (ev & w1 & results' & Hperf & _ & _ & _ & ev0 & tasks & Hrun & Hres).
rewrite Hperf in Hval. unfold value_of in Hval. cbn [snd] in Hval.
injection Hval as <-.
destruct (run_tasks_spec self (searches search_plan) w)
  as (ev0' & w1' & tasks' & Hrun' & Hitems & Hout & _).
rewrite Hrun in Hrun'. injection Hrun' as <- <- <-.
apply returned_of_outcomes in Hout.
assert (Hlen : List.length results'
               = List.length (successes (search_each self (searches search_plan) w))).
{ rewrite Hres, <- Hout.
  destruct (searches search_plan) as [|item rest] eqn:Hs.
  - destruct tasks; [reflexivity | discriminate Hitems].
  - apply Permutation_length, successes_perm, Permutation_map, as_completed_perm. }
split; [exact Hlen|].
intros Hnone. rewrite Hlen.
assert (Hall : forall l : list (option string),
           ~ In None l -> List.length (successes l) = List.length l).
{ induction l as [|[r|] l IH]; simpl; intros Hn;
    [reflexivity | f_equal; apply IH; tauto | exfalso; apply Hn; now left]. }
rewrite (Hall _ Hnone), <- Hout, length_map, <- Hitems, length_map. reflexivity.
Qed.

(** X4. A failing agent run makes [plan_searches], [write_report] and
    [send_email] raise the very exception of the run, after one call of the
    agent and with the error logged; nothing is retried. *)
Theorem stage_failures_are_logged_and_reraised :
(forall self query w w' e,
    Runner_run planner_agent ("Query: " ++ query) w = (w', inl e) ->
    plan_searches self query w
    = ([ Log INFO "Planning searches...";
         RunnerRun planner_agent ("Query: " ++ query);
         Log ERROR ("Error planning searches: " ++ str_of_exn e) ], w', inl e))
/\ (forall self query search_results w w' e,
      Runner_run writer_agent (report_input query search_results) w = (w', inl e) ->
      write_report self query search_results w
      = ([ Log INFO "Writing report...";
           RunnerRun writer_agent (report_input query search_results);
           Log ERROR ("Error writing report: " ++ str_of_exn e) ], w', inl e))
/\ (forall self report w w' e,
      Runner_run email_agent (markdown_report report) w = (w', inl e) ->
      send_email self report w
      = ([ Log INFO "Sending email...";
           RunnerRun email_agent (markdown_report report);
           Log ERROR ("Error sending email: " ++ str_of_exn e) ], w', inl e)).
Proof.
split; [|split].
- intros self q w w' e Hrun. now rewrite plan_searches_unfold, Hrun.
- intros self q results w w' e Hrun. now rewrite write_report_unfold, Hrun.
- intros self report w w' e Hrun. now rewrite send_email_unfold, Hrun.
Qed.

(** X5. [send_email] hands the markdown of the report, and nothing else, to
    the email agent in one run; the final output of that run is dropped, so
    a run that ends normally makes [send_email] return [None] whatever the
    agent answered. *)
Theorem send_email_one_call :
forall self report w,
  runner_calls (events_of (send_email self report w))
  = [(email_agent, markdown_report report)]
  /\ (forall w' answer,
        Runner_run email_agent (markdown_report report) w = (w', inr answer) ->
        value_of (send_email self report w) = inr tt
        /\ world_of (send_email self report w) = w')
  /\ forall report',
       markdown_report report' = markdown_report report ->
       send_email self report' w = send_email self report w.
Proof.
intros self report w. split; [apply send_email_events|]. split.
- intros w' answer Hrun. rewrite send_email_unfold, Hrun. split; reflexivity.
- intros report' Heq. rewrite !send_email_unfold, Heq. reflexivity.
Qed.

(** X6. The branch of the gathering loop that handles a raising task is
    never taken: [perform_searches] logs no error of a search task, since
    [search] has already turned every failure into [None]. *)
Theorem perform_searches_logs_no_task_error :
forall self search_plan w e,
  ~ In (Log ERROR ("Error in search task: " ++ str_of_exn e))
       (events_of (perform_searches self search_plan w)).
Proof using as_completed_perm.
clear gen_trace_id loop_time format_elapsed Time get_config config
  no_setter_message.
intros self search_plan w e.
assert (Hsearch : forall item w0,
           ~ In (Log ERROR ("Error in search task: " ++ str_of_exn e))
                (events_of (search self item w0))).
{ intros item w0. rewrite search_unfold.
  destruct (Runner_run search_agent (search_input item) w0) as [w' [e'|summary]];
    unfold events_of; cbn [fst]; intros H; no_such_event H. }
assert (Htasks : forall items w0,
           ~ In (Log ERROR ("Error in search task: " ++ str_of_exn e))
                (events_of (run_tasks self items w0))
           /\ exists tasks,
               value_of (run_tasks self items w0) = inr tasks
               /\ Forall (fun t => exists o, task_outcome t = inr o) tasks).
{ induction items as [|item rest IH]; intros w0.
  - split; [intros []|]. exists []. split; [reflexivity | constructor].
  - simpl. specialize (Hsearch item w0).
    destruct (search_never_raises self item w0) as [o Ho].
    destruct (search self item w0) as [[ev0 w1] r0].
    unfold value_of, events_of in Ho, Hsearch. cbn [fst snd] in Ho, Hsearch.
    subst r0.
    destruct (IH w1) as (Hno & tasks & Hval & Hall).
    destruct (run_tasks self rest w1) as [[ev1 w2] [e1|ts]];
      unfold value_of, events_of in Hval, Hno |- *; cbn [fst snd] in Hval, Hno |- *;
      [discriminate Hval|].
    injection Hval as ->.
    split; [rewrite in_app_iff; tauto|].
    eexists. split; [reflexivity|]. constructor; [eexists; reflexivity | exact Hall]. }
assert (Hgather : forall n completed k acc w0,
           Forall (fun t => exists o, task_outcome t = inr o) completed ->
           ~ In (Log ERROR ("Error in search task: " ++ str_of_exn e))
                (events_of (gather n completed k acc w0))).
{ intros n completed. induction completed as [|t rest IH]; intros k acc w0 Hall.
  - intros [].
  - inversion Hall as [|? ? [o Ho] Hrest]; subst. simpl. rewrite Ho.
    unfold bind, log, emit.
    specialize (IH (k + 1) (match o with Some r => acc ++ [r] | None => acc end)
                   w0 Hrest).
    destruct (gather n rest (k + 1) _ w0) as [[evg wg] rg].
    unfold events_of in IH |- *. cbn [fst] in IH |- *.
    intros [H|H]; [discriminate H | exact (IH H)]. }
unfold perform_searches, bind, log, emit. cbv beta iota.
destruct (searches search_plan) as [|item rest] eqn:Hs.
- unfold events_of, ret. cbn [fst]. intros H. no_such_event H.
- destruct (Htasks (item :: rest) w) as (Hno & tasks & Hval & Hall).
  assert (Hem : forall evs w', emit_all evs w' = (evs, w', inr tt)).
  { induction evs as [|x evs IHe]; intros w'; simpl; [reflexivity|].
    unfold bind, emit. rewrite IHe. reflexivity. }
  rewrite Hem.
  destruct (run_tasks self (item :: rest) w) as [[ev0 w1] [e1|ts]];
    unfold value_of, events_of in Hval, Hno; cbn [fst snd] in Hval, Hno;
    [discriminate Hval|].
  injection Hval as ->.
  assert (Hall' : Forall (fun t => exists o, task_outcome t = inr o)
                         (as_completed w1 tasks)).
  { rewrite Forall_forall in *. intros t Ht. apply Hall.
    eapply Permutation_in; [apply as_completed_perm | exact Ht]. }
  specialize (Hgather (List.length tasks) _ 0 [] w1 Hall').
  destruct (gather (List.length tasks) (as_completed w1 tasks) 0 [] w1)
    as [[evg wg] [eg|results]];
    unfold events_of in Hgather |- *; cbn [fst] in Hgather |- *;
    unfold ret; cbn [fst]; intros H; no_such_event H; tauto.
Qed.


End Pipeline.

Example sanitize_normal : sanitize_query "normal query" = "normal query"%string.
Proof. reflexivity. Qed.

Example sanitize_tags :
  sanitize_query "query with <script> tags" = "query with script tags"%string.
Proof. reflexivity. Qed.

Example keywords_demo :
  extract_keywords "The cat and the Cat sat on a mat; the dog sat." 10
  = ["cat"; "sat"; "mat"; "dog"]%string.
Proof. reflexivity. Qed.

Example repr_demo :
  Py.str_of_list ["it's"; "a\b"; "x y"]%string
  = ("[" ++ String Py.dquote ("it's" ++ String Py.dquote ", 'a\\b', 'x y']"))%string.
Proof. reflexivity. Qed.

Example repr_escapes :
  Py.repr_str (String "a" (String "010" (String "b" (String "000"
                 (String "160" (String "127" EmptyString))))))
  = "'a\nb\x00\xa0\x7f'"%string
  /\ Py.repr_str ("both ' and " ++ String Py.dquote EmptyString)
     = ("'both \' and " ++ String Py.dquote "'")%string.
Proof. split; reflexivity. Qed.

Example strip_demo :
  Py.strip (String " " (String "009" (" hi there "
              ++ String "010" (String "133" EmptyString))))
  = "hi there"%string.
Proof. reflexivity. Qed.

Example findall_demo :
  Py.findall_words (Py.lower "Foo_Bar baz-QUX 42")
  = ["foo_bar"; "baz"; "qux"; "42"]%string.
Proof. reflexivity. Qed.

Example lower_demo :
  Py.lower (String "201" (String "215" (String "223" "Z")))
  = String "233" (String "215" (String "223" "z")).
Proof. reflexivity. Qed.

(** ** [sanitize_query] *)

Lemma take_length (n : nat) (s : string) : String.length (Py.take n s) <= n.
Proof.
  revert s. induction n as [|n IH]; intros [|c s]; simpl; try lia.
  specialize (IH s). lia.
Qed.

Lemma take_has_char (a : ascii) (n : nat) (s : string) :
  Py.has_char a s = false -> Py.has_char a (Py.take n s) = false.
Proof.
  revert s. induction n as [|n IH]; intros [|c s]; simpl; try reflexivity.
  intros H. apply orb_false_iff in H as [Hc Hs].
  rewrite Hc. simpl. now apply IH.
Qed.

Lemma remove_harmful_clean (a : ascii) (s : string) :
  harmful a = true -> Py.has_char a (remove_harmful s) = false.
Proof.
  intros Ha. induction s as [|c s IH]; simpl; [reflexivity|].
  destruct (harmful c) eqn:Hc; [exact IH|]. simpl. rewrite IH, orb_false_r.
  destruct (Ascii.eqb_spec c a) as [->|]; [congruence | reflexivity].
Qed.

Lemma sanitize_query_has_no (a : ascii) (q : string) :
  harmful a = true -> Py.has_char a (sanitize_query q) = false.
Proof.
  intros Ha. unfold sanitize_query.
  destruct (Py.truthy q); cbn [negb]; [|reflexivity].
  destruct (500 <? _).
  - apply take_has_char, remove_harmful_clean, Ha.
  - apply remove_harmful_clean, Ha.
Qed.

(** C9. The result of [sanitize_query] has at most 500 characters and holds
    none of the four characters less-than, greater-than, double quote and
    single quote; on the empty string the result is the empty string. *)
Theorem sanitize_query_bounded_and_clean :
  forall query : string,
    String.length (sanitize_query query) <= 500
    /\ Py.has_char "<"%char (sanitize_query query) = false
    /\ Py.has_char ">"%char (sanitize_query query) = false
    /\ Py.has_char Py.dquote (sanitize_query query) = false
    /\ Py.has_char Py.squote (sanitize_query query) = false
    /\ sanitize_query EmptyString = EmptyString.
Proof.
  intros q. split.
  { unfold sanitize_query. destruct (Py.truthy q); cbn [negb]; [|simpl; lia].
    destruct (500 <? _) eqn:Hlen.
    - apply take_length.
    - apply Nat.ltb_ge in Hlen. exact Hlen. }
  repeat (split; [apply sanitize_query_has_no; reflexivity|]).
  reflexivity.
Qed.

(** ** [extract_keywords] *)

(** *** Lower case *)

Lemma lower_char_idem (c : ascii) : Py.lower_char (Py.lower_char c) = Py.lower_char c.
Proof. destruct c as [[] [] [] [] [] [] [] []]; reflexivity. Qed.

Lemma lower_idem (s : string) : Py.lower (Py.lower s) = Py.lower s.
Proof.
  induction s as [|c s IH]; simpl; [reflexivity|].
  now rewrite lower_char_idem, IH.
Qed.

Lemma lower_app (a b : string) :
  Py.lower (a ++ b) = (Py.lower a ++ Py.lower b)%string.
Proof. induction a as [|c a IH]; simpl; [reflexivity | now rewrite IH]. Qed.

(** *** The words found by [re.findall] *)

Lemma findall_from_lower (s : string) :
  forall cur w,
    Py.lower cur = cur -> Py.lower s = s ->
    In w (Py.findall_words_from cur s) -> Py.lower w = w.
Proof.
  induction s as [|c s IH]; intros cur w Hcur Hs; simpl.
  - destruct (Py.truthy cur); simpl; [intros [<-|[]]; exact Hcur | tauto].
  - simpl in Hs. injection Hs as Hc Hs'.
    destruct (Py.is_word c).
    + apply IH; [|exact Hs']. rewrite lower_app. simpl. now rewrite Hcur, Hc.
    + destruct (Py.truthy cur); simpl.
      * intros [<-|Hin]; [exact Hcur|]. now apply (IH EmptyString).
      * now apply (IH EmptyString).
Qed.

Lemma findall_from_occurs (s : string) :
  forall pre cur w,
    In w (Py.findall_words_from cur s) ->
    occurs_in w (pre ++ cur ++ s)%string.
Proof.
  induction s as [|c s IH]; intros pre cur w; simpl.
  - destruct (Py.truthy cur); simpl; [|tauto].
    intros [<-|[]]. exists pre, EmptyString. reflexivity.
  - destruct (Py.is_word c).
    + intros Hin. apply (IH pre) in Hin.
      now rewrite sapp_assoc in Hin.
    + assert (Hrest : In w (Py.findall_words_from EmptyString s) ->
                      occurs_in w (pre ++ cur ++ String c s)%string).
      { intros Hin. apply (IH (pre ++ cur ++ String c EmptyString)%string) in Hin.
        simpl in Hin. now rewrite !sapp_assoc in Hin. }
      destruct (Py.truthy cur); simpl; [|exact Hrest].
      intros [<-|Hin]; [|now apply Hrest].
      exists pre, (String c s). reflexivity.
Qed.

Lemma findall_words_occur (t w : string) :
  In w (Py.findall_words t) -> occurs_in w t.
Proof. intros H. apply (findall_from_occurs t EmptyString EmptyString w H). Qed.

(** *** The dictionary of counts *)

Lemma dict_get_set (d : Py.dict nat) (k k' : string) (v default : nat) :
  Py.dict_get (Py.dict_set d k v) k' default
  = if String.eqb k k' then v else Py.dict_get d k' default.
Proof.
  induction d as [|[x n] d IH]; simpl.
  - reflexivity.
  - destruct (String.eqb_spec x k) as [->|Hxk]; simpl.
    + destruct (String.eqb k k'); reflexivity.
    + destruct (String.eqb_spec x k') as [->|Hxk'].
      * destruct (String.eqb_spec k k'); [congruence | reflexivity].
      * exact IH.
Qed.

Lemma dict_set_keys (d : Py.dict nat) (k : string) (v : nat) (x : string) :
  In x (map fst (Py.dict_set d k v)) <-> In x (map fst d) \/ x = k.
Proof.
  induction d as [|[y n] d IH]; simpl.
  - intuition.
  - destruct (String.eqb_spec y k) as [->|Hyk]; simpl.
    + intuition.
    + rewrite IH. intuition.
Qed.

Lemma dict_set_NoDup (d : Py.dict nat) (k : string) (v : nat) :
  NoDup (map fst d) -> NoDup (map fst (Py.dict_set d k v)).
Proof.
  induction d as [|[y n] d IH]; simpl; intros Hnd.
  - constructor; [tauto | constructor].
  - inversion Hnd as [|? ? Hnotin Hnd']; subst.
    destruct (String.eqb_spec y k) as [->|Hyk]; simpl.
    + constructor; assumption.
    + constructor; [|apply IH, Hnd'].
      rewrite dict_set_keys. intros [H|H]; [contradiction | congruence].
Qed.

Lemma dict_get_entry (d : Py.dict nat) (k : string) (v default : nat) :
  NoDup (map fst d) -> In (k, v) d -> Py.dict_get d k default = v.
Proof.
  induction d as [|[y n] d IH]; simpl; intros Hnd Hin; [contradiction|].
  inversion Hnd as [|? ? Hnotin Hnd']; subst.
  destruct Hin as [Heq|Hin].
  - injection Heq as -> ->. now rewrite String.eqb_refl.
  - destruct (String.eqb_spec y k) as [->|_]; [|now apply IH].
    exfalso. apply Hnotin. apply (in_map fst) in Hin. exact Hin.
Qed.

Lemma count_fold (l : list string) :
  forall d w,
    Py.dict_get (fold_left count_step l d) w 0
    = Py.dict_get d w 0 + count_occ string_dec l w.
Proof.
  induction l as [|x l IH]; intros d w; simpl; [lia|].
  rewrite IH. unfold count_step at 1. rewrite dict_get_set.
  destruct (string_dec x w) as [Heq|Hne]; destruct (String.eqb_spec x w);
    try congruence; subst; lia.
Qed.

Lemma count_fold_keys (l : list string) :
  forall d x,
    In x (map fst (fold_left count_step l d)) -> In x (map fst d) \/ In x l.
Proof.
  induction l as [|y l IH]; intros d x; simpl; [tauto|].
  intros H. apply IH in H as [H|H]; [|tauto].
  apply dict_set_keys in H. intuition.
Qed.

Lemma count_fold_NoDup (l : list string) :
  forall d, NoDup (map fst d) -> NoDup (map fst (fold_left count_step l d)).
Proof.
  induction l as [|y l IH]; intros d Hd; simpl; [exact Hd|].
  apply IH, dict_set_NoDup, Hd.
Qed.

(** Every entry of [count_words] is a keyword with the number of its
    occurrences among the keywords. *)
Lemma count_words_entries (keywords : list string) (w : string) (n : nat) :
  In (w, n) (count_words keywords) ->
  In w keywords /\ n = count_occ string_dec keywords w.
Proof.
  intros Hin. change (count_words keywords) with (fold_left count_step keywords [])
    in Hin.
  split.
  - apply (in_map fst) in Hin. apply count_fold_keys in Hin as [[]|H]. exact H.
  - rewrite <- (dict_get_entry _ w n 0 (count_fold_NoDup keywords [] (NoDup_nil _)) Hin).
    now rewrite count_fold.
Qed.

Lemma count_occ_filter (p : string -> bool) (l : list string) (w : string) :
  p w = true -> count_occ string_dec (filter p l) w = count_occ string_dec l w.
Proof.
  intros Hp. induction l as [|x l IH]; simpl; [reflexivity|].
  destruct (p x) eqn:Hx; simpl; destruct (string_dec x w); try congruence.
Qed.

(** *** The stable sort by descending count *)

Lemma insert_desc_perm {K : Type} (x : K * nat) (l : list (K * nat)) :
  Permutation (Py.insert_desc x l) (x :: l).
Proof.
  induction l as [|y l IH]; simpl; [apply Permutation_refl|].
  destruct (snd x <? snd y); [|apply Permutation_refl].
  eapply Permutation_trans; [apply perm_skip, IH | apply perm_swap].
Qed.

Lemma sorted_by_count_desc_perm {K : Type} (l : list (K * nat)) :
  Permutation (Py.sorted_by_count_desc l) l.
Proof.
  induction l as [|x l IH]; simpl; [constructor|].
  eapply Permutation_trans; [apply insert_desc_perm | apply perm_skip, IH].
Qed.

Lemma insert_desc_sorted {K : Type} (x : K * nat) (l : list (K * nat)) :
  Sorted count_ge l -> Sorted count_ge (Py.insert_desc x l).
Proof.
  induction l as [|y l IH]; simpl; intros Hs.
  - repeat constructor.
  - destruct (snd x <? snd y) eqn:Hlt.
    + inversion Hs as [|? ? Hs' Hhd]; subst. constructor; [apply IH, Hs'|].
      apply Nat.ltb_lt in Hlt.
      destruct l as [|z l]; simpl.
      * constructor. unfold count_ge. lia.
      * inversion Hhd; subst.
        destruct (snd x <? snd z); constructor; unfold count_ge in *; lia.
    + apply Nat.ltb_ge in Hlt. constructor; [exact Hs|].
      constructor. exact Hlt.
Qed.

Lemma sorted_by_count_desc_sorted {K : Type} (l : list (K * nat)) :
  StronglySorted count_ge (Py.sorted_by_count_desc l).
Proof.
  apply Sorted_StronglySorted.
  - intros a b c Hab Hbc. unfold count_ge in *. lia.
  - induction l as [|x l IH]; simpl; [constructor | apply insert_desc_sorted, IH].
Qed.

Lemma firstn_incl {A : Type} (n : nat) (l : list A) (x : A) :
  In x (firstn n l) -> In x l.
Proof.
  revert l. induction n as [|n IH]; intros [|y l]; simpl; try tauto.
  intros [H|H]; [now left | right; now apply IH].
Qed.

Lemma StronglySorted_firstn {A : Type} (R : A -> A -> Prop) (n : nat) (l : list A) :
  StronglySorted R l -> StronglySorted R (firstn n l).
Proof.
  revert l. induction n as [|n IH]; intros l Hs; [constructor|].
  destruct l as [|x l]; simpl; [constructor|].
  inversion Hs as [|? ? Hs' Hall]; subst. constructor; [apply IH, Hs'|].
  rewrite Forall_forall in *. intros y Hy. apply Hall.
  apply (firstn_incl n). exact Hy.
Qed.

Lemma slice_to_incl {A : Type} (k : Z) (l : list A) (x : A) :
  In x (Py.slice_to k l) -> In x l.
Proof. unfold Py.slice_to. apply firstn_incl. Qed.

Lemma slice_to_length {A : Type} (k : Z) (l : list A) :
  (0 <= k)%Z -> (Z.of_nat (List.length (Py.slice_to k l)) <= k)%Z.
Proof.
  intros Hk. unfold Py.slice_to.
  destruct (Z.ltb_spec k 0) as [Hneg|_]; [lia|].
  rewrite length_firstn. lia.
Qed.

(** The sorted entries, read as words, are in descending order of any
    measure that agrees with the counts. *)
Lemma sorted_entries_by_measure (f : string -> nat) (l : list (string * nat)) :
  (forall w n, In (w, n) l -> n = f w) ->
  StronglySorted count_ge l ->
  StronglySorted (fun a b => f b <= f a) (map fst l).
Proof.
  intros Hf Hs. induction Hs as [|[w n] l Hs IH Hall]; simpl; constructor.
  - apply IH. intros w' n' Hin. apply Hf. now right.
  - rewrite Forall_forall in *. intros b Hb.
    apply in_map_iff in Hb as ([w' n'] & <- & Hin). simpl.
    specialize (Hall _ Hin). unfold count_ge in Hall. simpl in Hall.
    rewrite <- (Hf w n (or_introl eq_refl)), <- (Hf w' n' (or_intror Hin)).
    exact Hall.
Qed.

(** *** The keywords *)

Lemma in_stop_words_false (w : string) :
  in_stop_words w = false -> ~ In w stop_words.
Proof.
  unfold in_stop_words. intros H Hin.
  assert (existsb (String.eqb w) stop_words = true)
    by (apply existsb_exists; exists w; split; [exact Hin | apply String.eqb_refl]).
  congruence.
Qed.

Lemma sorted_entry_is_keyword (text w : string) (n : nat) :
  In (w, n)
     (Py.sorted_by_count_desc
        (count_words (filter keep_word (Py.findall_words (Py.lower text))))) ->
  In w (Py.findall_words (Py.lower text))
  /\ keep_word w = true
  /\ n = frequency text w.
Proof.
  intros Hin.
  apply (Permutation_in _ (sorted_by_count_desc_perm _)) in Hin.
  apply count_words_entries in Hin as [Hkw Hn].
  apply filter_In in Hkw as Hkw'. destruct Hkw' as [Hword Hkeep].
  split; [exact Hword|]. split; [exact Hkeep|].
  rewrite Hn. unfold frequency. now apply count_occ_filter.
Qed.

(** C10, as the code has it. For a bound [max_keywords] that is not
    negative, [extract_keywords] returns at most [max_keywords] keywords;
    each is in lower case, longer than two characters, no stop word, and
    occurs in the text put in lower case; they come in descending order of
    the number of their occurrences as a word of that text. *)
Theorem extract_keywords_of_lowered_text :
  forall (text : string) (max_keywords : Z),
    (0 <= max_keywords)%Z ->
    (Z.of_nat (List.length (extract_keywords text max_keywords)) <= max_keywords)%Z
    /\ Forall (keyword_ok (Py.lower text)) (extract_keywords text max_keywords)
    /\ StronglySorted (fun a b => frequency text b <= frequency text a)
                      (extract_keywords text max_keywords).
Proof.
  intros text k Hk. unfold extract_keywords.
  set (entries := Py.sorted_by_count_desc
                    (count_words (filter keep_word
                                    (Py.findall_words (Py.lower text))))).
  split; [rewrite length_map; apply slice_to_length, Hk|]. split.
  - apply Forall_forall. intros w Hw.
    apply in_map_iff in Hw as ([w' n] & <- & Hin). simpl.
    apply slice_to_incl, sorted_entry_is_keyword in Hin
      as (Hword & Hkeep & _).
    unfold keep_word in Hkeep. apply andb_true_iff in Hkeep as [Hstop Hlen].
    apply negb_true_iff in Hstop. apply Nat.ltb_lt in Hlen.
    split; [|split; [exact Hlen | split]].
    + apply (findall_from_lower (Py.lower text) EmptyString w');
        [reflexivity | apply lower_idem | exact Hword].
    + apply in_stop_words_false, Hstop.
    + apply findall_words_occur, Hword.
  - apply sorted_entries_by_measure.
    + intros w n Hin. now apply slice_to_incl, sorted_entry_is_keyword in Hin.
    + unfold Py.slice_to. apply StronglySorted_firstn, sorted_by_count_desc_sorted.
Qed.

Lemma prefix_app (w post : string) : prefix w (w ++ post) = true.
Proof.
  induction w as [|c w IH]; simpl; [destruct post; reflexivity|].
  destruct (ascii_dec c c); [exact IH | congruence].
Qed.

Lemma contains_here (t w : string) : prefix w t = true -> Py.contains t w = true.
Proof. intros H. destruct t; cbn [Py.contains]; rewrite H; reflexivity. Qed.

Lemma occurs_in_contains (w t : string) :
  occurs_in w t -> Py.contains t w = true.
Proof.
  intros (pre & post & ->). induction pre as [|c pre IH].
  - apply contains_here. apply (prefix_app w post).
  - cbn [String.append Py.contains]. rewrite IH. apply orb_true_r.
Qed.

(** The keywords are those of the text in lower case, not of the text as
    given: [hello] does not occur in [Hello]; and a negative bound cuts from
    the end of the list instead of bounding its length. *)
Lemma extract_keywords_not_of_given_text :
  ~ keywords_of_given_text "Hello" 10
  /\ ~ keywords_of_given_text "alpha beta" (-1).
Proof.
  split.
  - intros (_ & Hall & _).
    change (extract_keywords "Hello" 10) with ["hello"%string] in Hall.
    inversion Hall as [|? ? (_ & _ & _ & Hocc) _]; subst.
    apply occurs_in_contains in Hocc. discriminate Hocc.
  - intros (Hlen & _).
    change (extract_keywords "alpha beta" (-1)) with ["alpha"%string] in Hlen.
    simpl in Hlen. lia.
Qed.

Lemma extract_keywords_of_lowered_text_witness :
  (0 <= 2)%Z
  /\ (Z.of_nat (List.length
                  (extract_keywords "The cat sat; the Cat sat; a dog sat." 2))
      <= 2)%Z
  /\ Forall (keyword_ok (Py.lower "The cat sat; the Cat sat; a dog sat."))
            (extract_keywords "The cat sat; the Cat sat; a dog sat." 2)
  /\ StronglySorted
       (fun a b => frequency "The cat sat; the Cat sat; a dog sat." b
                   <= frequency "The cat sat; the Cat sat; a dog sat." a)
       (extract_keywords "The cat sat; the Cat sat; a dog sat." 2).
Proof.
  split; [lia|].
  apply (extract_keywords_of_lowered_text
           "The cat sat; the Cat sat; a dog sat." 2).
  lia.
Defined.

Example keywords_by_frequency :
  extract_keywords "The cat sat; the Cat sat; a dog sat." 2 = ["sat"; "cat"]%string.
Proof. reflexivity. Qed.

(** ** The scripted run *)

Local Abbreviation scripted_search :=
  (search Scripted.World Scripted.Runner_run).
Local Abbreviation scripted_search_each :=
  (search_each Scripted.World Scripted.Runner_run).
Local Abbreviation scripted_perform_searches :=
  (perform_searches Scripted.World Scripted.Runner_run Scripted.as_completed).
Local Abbreviation scripted_run :=
  (run Scripted.World Scripted.Runner_run Scripted.gen_trace_id Scripted.Time
       Scripted.loop_time Scripted.format_elapsed Scripted.as_completed
       Scripted.config).
Local Abbreviation scripted_main_run :=
  (main_run Scripted.World Scripted.Runner_run Scripted.gen_trace_id
            Scripted.Time Scripted.loop_time Scripted.format_elapsed
            Scripted.as_completed Scripted.get_config Scripted.config
            "property 'logger' of 'ResearchManager' object has no setter").

Lemma scripted_as_completed_perm (w : Scripted.World) (tasks : list Task) :
  Permutation (Scripted.as_completed w tasks) tasks.
Proof. apply Permutation_sym, Permutation_rev. Qed.

(** The second search of the scripted plan fails, and the two summaries come
    back in completion order, the third search first. *)
Example scripted_perform_searches_run :
  value_of _ (scripted_perform_searches Scripted.manager Scripted.plan 0)
  = inr ["summary #2"; "summary #0"]%string.
Proof. reflexivity. Qed.

Example scripted_run_yields :
  yields (events_of _ (scripted_run Scripted.manager "rocq" 0))
  = [ "View trace: https://platform.openai.com/traces/trace?trace_id=trace_0123";
      "Starting research...";
      "Searches planned (3 searches), starting to search...";
      "Searches complete (2 results), writing report...";
      "Report written, sending email...";
      "Email sent, research complete";
      "# Findings" ]%string.
Proof. reflexivity. Qed.

(** With the constructor as it is, the entry point never reaches the
    pipeline: the one chunk is the error of [ResearchManager()]. *)
Example scripted_main_run_yields :
  yields (events_of _ (scripted_main_run "rocq" 0))
  = [ "An error occurred during research: property 'logger' of 'ResearchManager' object has no setter" ]%string
  /\ runner_calls (events_of _ (scripted_main_run "rocq" 0)) = [].
Proof. split; reflexivity. Qed.


Lemma search_failure_caught_and_logged_witness :
  (forall w tasks, Permutation (Scripted.as_completed w tasks) tasks)
  /\ Scripted.Runner_run search_agent
       (search_input {| reason := "availability"; query := "outage report" |}) 1
     = (2, inl (Exception "HTTP 503"))
  /\ value_of _ (scripted_search Scripted.manager
                   {| reason := "availability"; query := "outage report" |} 1)
     = inr None
  /\ exists results,
       value_of _ (scripted_perform_searches Scripted.manager Scripted.plan 0)
       = inr results
       /\ Permutation results
            (successes (scripted_search_each Scripted.manager
                                             (searches Scripted.plan) 0))
       /\ List.length results <= List.length (searches Scripted.plan).
Proof.
  destruct (search_failure_caught_and_logged
              Scripted.World Scripted.Runner_run Scripted.as_completed
              scripted_as_completed_perm) as [Hsearch Hperform].
  split; [exact scripted_as_completed_perm|].
  split; [reflexivity|].
  split.
  - apply (Hsearch Scripted.manager
             {| reason := "availability"; query := "outage report" |}
             1 2 (Exception "HTTP 503")).
    reflexivity.
  - apply Hperform.
Defined.

Lemma run_pipeline_in_order_witness :
  value_of _ (scripted_run Scripted.manager "rocq" 0) = inr tt
  /\ in_pipeline_order Planning
       (map fst (runner_calls (events_of _ (scripted_run Scripted.manager "rocq" 0))))
     = true
  /\ exists search_plan search_results report,
       runner_calls (events_of _ (scripted_run Scripted.manager "rocq" 0))
       = (planner_agent Scripted.config, "Query: rocq"%string)
         :: map (fun item => (search_agent, search_input item))
                (searches search_plan)
         ++ [ (writer_agent, report_input "rocq" search_results);
              (email_agent, markdown_report report) ].
Proof.
  destruct (run_pipeline_in_order
              Scripted.World Scripted.Runner_run Scripted.gen_trace_id
              Scripted.Time Scripted.loop_time Scripted.format_elapsed
              Scripted.as_completed Scripted.config Scripted.manager "rocq" 0)
    as [Horder Hflow].
  split; [reflexivity|]. split; [exact Horder|].
  destruct (Hflow eq_refl)
    as (tid & w0 & ev1 & w1 & search_plan & ev2 & w2 & search_results & ev3 & w3
        & report & ev4 & w4 & _ & _ & _ & _ & _ & _ & Hcalls).
  exists search_plan, search_results, report. exact Hcalls.
Defined.

Lemma run_yields_progress_then_report_witness :
  value_of _ (scripted_run Scripted.manager "rocq" 0) = inr tt
  /\ exists report,
       List.length (yields (events_of _ (scripted_run Scripted.manager "rocq" 0)))
       = 7
       /\ last (yields (events_of _ (scripted_run Scripted.manager "rocq" 0)))
               EmptyString
          = markdown_report report.
Proof.
  split; [reflexivity|].
  destruct (run_yields_progress_then_report
              Scripted.World Scripted.Runner_run Scripted.gen_trace_id
              Scripted.Time Scripted.loop_time Scripted.format_elapsed
              Scripted.as_completed Scripted.config Scripted.manager "rocq" 0
              eq_refl)
    as (tid & w0 & ev1 & w1 & search_plan & ev2 & w2 & search_results & ev3 & w3
        & report & _ & _ & _ & _ & _ & Hlen & Hlast).
  exists report. split; [exact Hlen | exact Hlast].
Defined.


(** ** Further properties of the helpers *)

(** *** Deleting characters *)

Lemma subseq_refl (s : string) : subseq s s.
Proof. induction s; constructor; assumption. Qed.

Lemma subseq_trans (a b c : string) : subseq a b -> subseq b c -> subseq a c.
Proof.
  intros Hab Hbc. revert a Hab.
  induction Hbc as [|x s t Hst IH|x s t Hst IH]; intros a Hab.
  - exact Hab.
  - inversion Hab; subst; constructor; auto.
  - constructor. auto.
Qed.

Lemma subseq_length (s t : string) :
  subseq s t -> String.length s <= String.length t.
Proof. induction 1; simpl; lia. Qed.

Lemma subseq_empty (t : string) : subseq EmptyString t.
Proof. induction t; constructor; assumption. Qed.

Lemma lstrip_subseq (s : string) : subseq (Py.lstrip s) s.
Proof.
  induction s as [|c s IH]; simpl; [constructor|].
  destruct (Py.isspace c); [now constructor | apply subseq_refl].
Qed.

Lemma rstrip_subseq (s : string) : subseq (Py.rstrip s) s.
Proof.
  induction s as [|c s IH]; simpl; [constructor|].
  destruct (Py.rstrip s) as [|d r].
  - destruct (Py.isspace c); [apply subseq_empty | now constructor].
  - now constructor.
Qed.

Lemma remove_harmful_subseq (s : string) : subseq (remove_harmful s) s.
Proof.
  induction s as [|c s IH]; simpl; [constructor|].
  destruct (harmful c); now constructor.
Qed.

Lemma take_subseq (n : nat) (s : string) : subseq (Py.take n s) s.
Proof.
  revert s. induction n as [|n IH]; intros [|c s]; simpl;
    try apply subseq_empty. constructor. apply IH.
Qed.

(** X8. [sanitize_query] only deletes: its result is the query with some
    characters removed, the others in their order, so it is never longer
    than the query. *)
Theorem sanitize_query_only_deletes :
  forall query : string,
    subseq (sanitize_query query) query
    /\ String.length (sanitize_query query) <= String.length query.
Proof.
  intros q.
  assert (H : subseq (sanitize_query q) q).
  { unfold sanitize_query. destruct (Py.truthy q); cbn [negb];
      [|apply subseq_empty].
    assert (H1 : subseq (remove_harmful (Py.strip q)) q).
    { eapply subseq_trans; [apply remove_harmful_subseq|]. unfold Py.strip.
      eapply subseq_trans; [apply rstrip_subseq | apply lstrip_subseq]. }
    destruct (500 <? _); [|exact H1].
    eapply subseq_trans; [apply take_subseq | exact H1]. }
  split; [exact H | apply subseq_length, H].
Qed.

Lemma remove_harmful_clean_id (s : string) :
  all_chars (fun c => negb (harmful c)) s = true -> remove_harmful s = s.
Proof.
  induction s as [|c s IH]; simpl; [reflexivity|].
  intros H. apply andb_true_iff in H as [Hc Hs].
  apply negb_true_iff in Hc. rewrite Hc, (IH Hs). reflexivity.
Qed.

(** X9. A query that holds none of the four removed characters, has no white
    space at its ends and has at most 500 characters is returned as it is. *)
Theorem sanitize_query_keeps_clean_queries :
  forall query : string,
    all_chars (fun c => negb (harmful c)) query = true ->
    Py.strip query = query ->
    String.length query <= 500 ->
    sanitize_query query = query.
Proof.
  intros q Hclean Hstrip Hlen. unfold sanitize_query.
  destruct q as [|c q]; [reflexivity|]. cbn [Py.truthy negb].
  rewrite Hstrip, (remove_harmful_clean_id _ Hclean).
  apply Nat.ltb_ge in Hlen. now rewrite Hlen.
Qed.

Lemma sanitize_query_keeps_clean_queries_witness :
  all_chars (fun c => negb (harmful c)) "normal query" = true
  /\ Py.strip "normal query" = "normal query"%string
  /\ String.length "normal query" <= 500
  /\ sanitize_query "normal query" = "normal query"%string.
Proof.
  split; [reflexivity|]. split; [reflexivity|]. split; [simpl; lia|].
  apply sanitize_query_keeps_clean_queries; [reflexivity | reflexivity | simpl; lia].
Defined.

(** *** More on [extract_keywords] *)

Lemma NoDup_firstn {A : Type} (n : nat) (l : list A) :
  NoDup l -> NoDup (firstn n l).
Proof.
  revert l. induction n as [|n IH]; intros [|x l] H; simpl; try constructor.
  - inversion H; subst. intros Hin. apply firstn_incl in Hin. contradiction.
  - inversion H; subst. now apply IH.
Qed.

Lemma firstn_map {A B : Type} (f : A -> B) (n : nat) (l : list A) :
  firstn n (map f l) = map f (firstn n l).
Proof.
  revert l. induction n as [|n IH]; intros [|x l]; simpl; try reflexivity.
  now rewrite IH.
Qed.

(** X10. [extract_keywords] returns no keyword twice. *)
Theorem extract_keywords_has_no_duplicate :
  forall (text : string) (max_keywords : Z),
    NoDup (extract_keywords text max_keywords).
Proof.
  intros text k. unfold extract_keywords, Py.slice_to.
  rewrite <- firstn_map. apply NoDup_firstn.
  eapply Permutation_NoDup.
  - apply Permutation_sym, Permutation_map, sorted_by_count_desc_perm.
  - change (count_words ?l) with (fold_left count_step l []).
    apply count_fold_NoDup. constructor.
Qed.

Lemma dict_get_positive (d : Py.dict nat) (k : string) :
  0 < Py.dict_get d k 0 -> In k (map fst d).
Proof.
  induction d as [|[x n] d IH]; simpl; [lia|].
  destruct (String.eqb_spec x k) as [->|_]; [now left | right; now apply IH].
Qed.

Lemma count_occ_positive (l : list string) (w : string) :
  In w l -> 0 < count_occ string_dec l w.
Proof. intros H. now apply count_occ_In. Qed.

Lemma dict_set_length (d : Py.dict nat) (k : string) (v : nat) :
  List.length (Py.dict_set d k v) <= S (List.length d).
Proof.
  induction d as [|[y n] d IH]; simpl; [lia|].
  destruct (String.eqb y k); simpl; lia.
Qed.

(** X11. When [max_keywords] is at least the number of words of the text,
    nothing is cut: the keywords returned are exactly the words of the text
    in lower case that are longer than two characters and are no stop
    words. *)
Theorem extract_keywords_complete :
  forall (text : string) (max_keywords : Z) (w : string),
    (Z.of_nat (List.length (Py.findall_words (Py.lower text))) <= max_keywords)%Z ->
    (In w (extract_keywords text max_keywords)
     <-> In w (Py.findall_words (Py.lower text)) /\ keep_word w = true).
Proof.
  intros text k w Hk. unfold extract_keywords.
  set (words := Py.findall_words (Py.lower text)) in *.
  set (keywords := filter keep_word words).
  assert (Hkeys : forall l, List.length (count_words l) <= List.length l).
  { intros l. change (count_words l) with (fold_left count_step l []).
    assert (G : forall l d, List.length (fold_left count_step l d)
                            <= List.length d + List.length l).
    { clear. induction l as [|x l IH]; intros d; simpl; [lia|].
      specialize (IH (count_step d x)).
      pose proof (dict_set_length d x (Py.dict_get d x 0 + 1)) as Hd.
      fold (count_step d x) in Hd. lia. }
    specialize (G l []). simpl in G. exact G. }
  assert (Hall : Py.slice_to k (Py.sorted_by_count_desc (count_words keywords))
                 = Py.sorted_by_count_desc (count_words keywords)).
  { unfold Py.slice_to.
    assert (Hlen : List.length (Py.sorted_by_count_desc (count_words keywords))
                   <= List.length words).
    { rewrite (Permutation_length (sorted_by_count_desc_perm _)).
      etransitivity; [apply Hkeys|]. unfold keywords. apply filter_length_le. }
    destruct (Z.ltb_spec k 0) as [Hneg|_]; [lia|].
    apply firstn_all2. lia. }
  rewrite Hall. split.
  - intros Hin. apply in_map_iff in Hin as ([w' n] & <- & Hin). simpl.
    apply sorted_entry_is_keyword in Hin as (Hword & Hkeep & _). tauto.
  - intros [Hword Hkeep].
    assert (Hkw : In w keywords) by (apply filter_In; tauto).
    apply (Permutation_in _ (Permutation_map fst
             (Permutation_sym (sorted_by_count_desc_perm (count_words keywords))))).
    apply dict_get_positive.
    change (count_words keywords) with (fold_left count_step keywords []).
    rewrite count_fold. simpl. now apply count_occ_positive.
Qed.

Lemma extract_keywords_complete_witness :
  (Z.of_nat (List.length (Py.findall_words (Py.lower "The cat sat."))) <= 3)%Z
  /\ (In "cat"%string (extract_keywords "The cat sat." 3)
      <-> In "cat"%string (Py.findall_words (Py.lower "The cat sat."))
          /\ keep_word "cat" = true).
Proof.
  split; [simpl; lia|].
  apply extract_keywords_complete. simpl. lia.
Defined.

(** *** [chunk_text] *)

Lemma length_sapp (a b : string) :
  String.length (a ++ b) = String.length a + String.length b.
Proof. induction a as [|c a IH]; simpl; [reflexivity | now rewrite IH]. Qed.

Lemma concat_strings_app (a b : list string) :
  concat_strings (a ++ b) = (concat_strings a ++ concat_strings b)%string.
Proof.
  induction a as [|x a IH]; simpl; [reflexivity|].
  now rewrite IH, sapp_assoc.
Qed.

Lemma split_on_nonempty (sep : ascii) (s : string) : split_on sep s <> [].
Proof.
  induction s as [|c s IH]; simpl; [discriminate|].
  destruct (Ascii.eqb c sep); [discriminate|].
  destruct (split_on sep s); discriminate.
Qed.

(** The pieces of [s.split(".")], each followed by the separator, give back
    [s] followed by the separator. *)
Lemma split_on_rejoin (sep : ascii) (s : string) :
  concat_strings (map (fun piece => piece ++ String sep EmptyString)%string
                      (split_on sep s))
  = (s ++ String sep EmptyString)%string.
Proof.
  induction s as [|c s IH]; simpl; [reflexivity|].
  destruct (Ascii.eqb_spec c sep) as [->|Hne].
  - simpl. now rewrite IH.
  - pose proof (split_on_nonempty sep s) as Hnil.
    destruct (split_on sep s) as [|piece pieces]; [contradiction|].
    simpl in *. now rewrite <- IH.
Qed.

Lemma strip_subseq (s : string) : subseq (Py.strip s) s.
Proof.
  unfold Py.strip.
  eapply subseq_trans; [apply rstrip_subseq | apply lstrip_subseq].
Qed.

(** The loop keeps the text: the chunks are stripped pieces, none empty
    before stripping, and the pieces followed by the current chunk and by
    the sentences still to come are what there was at the start. *)
Lemma chunk_loop_keeps_text (max_length : Z) (sentences : list string) :
  forall raw current,
    Forall (fun piece => piece <> EmptyString) raw ->
    exists raw',
      fst (chunk_loop max_length sentences (map Py.strip raw) current)
      = map Py.strip raw'
      /\ Forall (fun piece => piece <> EmptyString) raw'
      /\ (concat_strings raw'
          ++ snd (chunk_loop max_length sentences (map Py.strip raw) current))%string
         = (concat_strings raw ++ current
            ++ concat_strings (map dotted sentences))%string.
Proof.
  induction sentences as [|sentence rest IH]; intros raw current Hraw.
  - exists raw. simpl. rewrite sapp_nil_r. auto.
  - simpl.
    destruct (Z.of_nat (String.length (current ++ sentence)) <=? max_length)%Z.
    + destruct (IH raw (current ++ (sentence ++ "."))%string Hraw)
        as (raw' & H1 & H2 & H3).
      exists raw'. split; [exact H1|]. split; [exact H2|].
      rewrite H3. unfold dotted. now rewrite !sapp_assoc.
    + destruct current as [|c current]; cbn [Py.truthy].
      * destruct (IH raw (sentence ++ ".")%string Hraw) as (raw' & H1 & H2 & H3).
        exists raw'. split; [exact H1|]. split; [exact H2|].
        rewrite H3. unfold dotted. reflexivity.
      * assert (Hraw' : Forall (fun piece => piece <> EmptyString)
                               (raw ++ [String c current]))
          by (apply Forall_app; split; [exact Hraw | repeat constructor; discriminate]).
        destruct (IH (raw ++ [String c current]) (sentence ++ ".")%string Hraw')
          as (raw' & H1 & H2 & H3).
        rewrite map_app in H1, H3. cbn [map] in H1, H3.
        exists raw'. split; [exact H1|].
        split; [exact H2|]. rewrite H3, concat_strings_app.
        cbn [concat_strings fold_right map].
        unfold dotted. now rewrite sapp_nil_r, !sapp_assoc.
Qed.

(** X12. [chunk_text] loses no text: when the text is longer than
    [max_length], the chunks are pieces of the text followed by one full
    stop, each piece non-empty and stripped of the white space at its ends;
    put end to end, the pieces are the text and the full stop.  A text that
    is not longer than [max_length] is its own single chunk. *)
Theorem chunk_text_keeps_the_text :
  forall (text : string) (max_length : Z),
    ((Z.of_nat (String.length text) <= max_length)%Z ->
     chunk_text text max_length = [text])
    /\ ((max_length < Z.of_nat (String.length text))%Z ->
        exists pieces,
          chunk_text text max_length = map Py.strip pieces
          /\ Forall (fun piece => piece <> EmptyString) pieces
          /\ concat_strings pieces = (text ++ ".")%string).
Proof.
  intros text max_length. unfold chunk_text. split.
  - intros H. apply Z.leb_le in H. now rewrite H.
  - intros H. apply Z.leb_gt in H. rewrite H.
    destruct (chunk_loop_keeps_text max_length (split_on "." text) [] EmptyString
                                    (Forall_nil _))
      as (raw & H1 & H2 & H3).
    simpl in H1, H3.
    destruct (chunk_loop max_length (split_on "." text) [] EmptyString)
      as [chunks current].
    simpl in H1, H3. subst chunks.
    change (map dotted (split_on "." text))
      with (map (fun piece => piece ++ String "." EmptyString)%string
                (split_on "." text)) in H3.
    rewrite split_on_rejoin in H3.
    destruct current as [|c current]; cbn [Py.truthy].
    + exists raw. rewrite sapp_nil_r in H3. auto.
    + exists (raw ++ [String c current]). rewrite map_app. split; [reflexivity|].
      split.
      * apply Forall_app. split; [exact H2 | repeat constructor; discriminate].
      * rewrite concat_strings_app. simpl. now rewrite sapp_nil_r.
Qed.

Lemma chunk_text_keeps_the_text_witness :
  (Z.of_nat (String.length "ab") <= 5)%Z
  /\ chunk_text "ab" 5 = ["ab"%string]
  /\ (5 < Z.of_nat (String.length "One. Two. Three"))%Z
  /\ exists pieces,
       chunk_text "One. Two. Three" 5 = map Py.strip pieces
       /\ Forall (fun piece => piece <> EmptyString) pieces
       /\ concat_strings pieces = ("One. Two. Three" ++ ".")%string.
Proof.
  destruct (chunk_text_keeps_the_text "ab" 5) as [Hshort _].
  destruct (chunk_text_keeps_the_text "One. Two. Three" 5) as [_ Hlong].
  split; [simpl; lia|]. split; [apply Hshort; simpl; lia|].
  split; [simpl; lia|]. apply Hlong. simpl. lia.
Defined.

Example chunk_text_demo :
  chunk_text "One. Two. Three" 5 = ["One."; "Two."; "Three."]%string
  /\ chunk_text "One. Two. Three" 10 = ["One. Two."; "Three."]%string.
Proof. split; reflexivity. Qed.

Lemma chunk_bounded_strip (max_length : Z) (all : list string) (chunk : string) :
  chunk_bounded max_length all chunk ->
  chunk_bounded max_length all (Py.strip chunk).
Proof.
  intros [H|(sentence & Hin & Hsub)].
  - left. pose proof (subseq_length _ _ (strip_subseq chunk)). lia.
  - right. exists sentence. split; [exact Hin|].
    eapply subseq_trans; [apply strip_subseq | exact Hsub].
Qed.

Lemma chunk_loop_bounded (max_length : Z) (all sentences : list string) :
  forall chunks current,
    incl sentences all ->
    Forall (chunk_bounded max_length all) chunks ->
    (current = EmptyString \/ chunk_bounded max_length all current) ->
    Forall (chunk_bounded max_length all)
           (fst (chunk_loop max_length sentences chunks current))
    /\ (snd (chunk_loop max_length sentences chunks current) = EmptyString
        \/ chunk_bounded max_length all
             (snd (chunk_loop max_length sentences chunks current))).
Proof.
  induction sentences as [|sentence rest IH]; intros chunks current Hincl Hch Hcur.
  - simpl. auto.
  - simpl.
    assert (Hrest : incl rest all) by (intros x Hx; apply Hincl; now right).
    destruct (Z.leb_spec (Z.of_nat (String.length (current ++ sentence)))
                         max_length) as [Hle|Hgt].
    + apply IH; [exact Hrest | exact Hch|]. right. left.
      rewrite <- sapp_assoc, length_sapp. simpl. lia.
    + apply IH; [exact Hrest | |].
      * destruct current as [|c current]; cbn [Py.truthy]; [exact Hch|].
        apply Forall_app. split; [exact Hch|]. constructor; [|constructor].
        destruct Hcur as [Hcur|Hcur]; [discriminate Hcur|].
        now apply chunk_bounded_strip.
      * right. right. exists sentence. split; [apply Hincl; now left|].
        apply subseq_refl.
Qed.

(** X13. A chunk of [chunk_text] has at most [max_length + 1] characters,
    unless it is a single sentence of the text with its full stop (less the
    white space stripped), which is as long as the sentence is. *)
Theorem chunk_text_bounds_chunks :
  forall (text : string) (max_length : Z) (chunk : string),
    In chunk (chunk_text text max_length) ->
    (Z.of_nat (String.length chunk) <= max_length + 1)%Z
    \/ exists sentence,
         In sentence (split_on "." text)
         /\ subseq chunk (sentence ++ ".")%string.
Proof.
  intros text max_length chunk. unfold chunk_text.
  destruct (Z.leb_spec (Z.of_nat (String.length text)) max_length) as [Hle|Hgt].
  - intros [<-|[]]. left. lia.
  - destruct (chunk_loop_bounded max_length (split_on "." text)
                (split_on "." text) [] EmptyString (incl_refl _) (Forall_nil _)
                (or_introl eq_refl)) as [Hchunks Hcur].
    destruct (chunk_loop max_length (split_on "." text) [] EmptyString)
      as [chunks current].
    simpl in Hchunks, Hcur. rewrite Forall_forall in Hchunks.
    destruct current as [|c current]; cbn [Py.truthy].
    + intros Hin. exact (Hchunks _ Hin).
    + intros Hin. apply in_app_or in Hin as [Hin|[<-|[]]].
      * exact (Hchunks _ Hin).
      * destruct Hcur as [Hcur|Hcur]; [discriminate Hcur|].
        exact (chunk_bounded_strip _ _ _ Hcur).
Qed.

Lemma chunk_text_bounds_chunks_witness :
  In "Two."%string (chunk_text "One. Two. Three" 5)
  /\ ((Z.of_nat (String.length "Two.") <= 5 + 1)%Z
      \/ exists sentence,
           In sentence (split_on "." "One. Two. Three")
           /\ subseq "Two." (sentence ++ ".")%string).
Proof.
  assert (Hin : In "Two."%string (chunk_text "One. Two. Three" 5))
    by (right; left; reflexivity).
  split; [exact Hin|].
  exact (chunk_text_bounds_chunks "One. Two. Three" 5 "Two." Hin).
Defined.

(** *** [safe_filename] *)

Lemma lstrip_chars_subseq (chars s : string) : subseq (lstrip_chars chars s) s.
Proof.
  induction s as [|c s IH]; simpl; [constructor|].
  destruct (Py.has_char c chars); [now constructor | apply subseq_refl].
Qed.

Lemma rstrip_chars_subseq (chars s : string) : subseq (rstrip_chars chars s) s.
Proof.
  induction s as [|c s IH]; simpl; [constructor|].
  destruct (rstrip_chars chars s) as [|d r].
  - destruct (Py.has_char c chars); [apply subseq_empty | now constructor].
  - now constructor.
Qed.

Lemma all_chars_subseq (p : ascii -> bool) (s t : string) :
  subseq s t -> all_chars p t = true -> all_chars p s = true.
Proof.
  induction 1 as [|c s t _ IH|c s t _ IH]; simpl; intros H;
    try apply andb_true_iff in H as [Hc Ht]; auto.
  now rewrite Hc, IH.
Qed.

Lemma replace_invalid_valid (s : string) :
  all_chars (fun c => negb (invalid_in_filename c)) (replace_invalid s) = true.
Proof.
  induction s as [|c s IH]; simpl; [reflexivity|].
  rewrite IH, andb_true_r. destruct (invalid_in_filename c) eqn:Hc;
    [reflexivity | now rewrite Hc].
Qed.

Lemma replace_invalid_length (s : string) :
  String.length (replace_invalid s) = String.length s.
Proof. induction s as [|c s IH]; simpl; congruence. Qed.

Lemma lstrip_chars_start (chars s : string) :
  starts_with_any chars (lstrip_chars chars s) = false.
Proof.
  induction s as [|c s IH]; simpl; [reflexivity|].
  destruct (Py.has_char c chars) eqn:Hc; [exact IH | simpl; exact Hc].
Qed.

Lemma rstrip_chars_start (chars s : string) :
  starts_with_any chars s = false ->
  starts_with_any chars (rstrip_chars chars s) = false.
Proof.
  destruct s as [|c s]; simpl; [reflexivity|]. intros Hc.
  destruct (rstrip_chars chars s); [rewrite Hc|]; simpl; auto.
Qed.

Lemma take_start (chars : string) (n : nat) (s : string) :
  starts_with_any chars s = false ->
  starts_with_any chars (Py.take n s) = false.
Proof. destruct n, s; simpl; auto. Qed.

(** X14. The result of [safe_filename] has at most 255 characters and is
    never longer than the name given, holds none of the nine characters
    that are replaced, and does not begin with a full stop or a space. *)
Theorem safe_filename_is_safe :
  forall filename : string,
    String.length (safe_filename filename) <= 255
    /\ String.length (safe_filename filename) <= String.length filename
    /\ all_chars (fun c => negb (invalid_in_filename c)) (safe_filename filename)
       = true
    /\ starts_with_any ". " (safe_filename filename) = false.
Proof.
  intros f. unfold safe_filename. cbv zeta.
  set (stripped := strip_chars ". " (replace_invalid f)).
  assert (Hsub : subseq stripped (replace_invalid f)).
  { unfold stripped, strip_chars.
    eapply subseq_trans; [apply rstrip_chars_subseq | apply lstrip_chars_subseq]. }
  assert (Hstart : starts_with_any ". " stripped = false).
  { unfold stripped, strip_chars. apply rstrip_chars_start, lstrip_chars_start. }
  pose proof (subseq_length _ _ Hsub) as Hlen.
  rewrite replace_invalid_length in Hlen.
  pose proof (all_chars_subseq _ _ _ Hsub (replace_invalid_valid f)) as Hvalid.
  destruct (255 <? String.length stripped) eqn:Hcut.
  - pose proof (take_length 255 stripped).
    pose proof (subseq_length _ _ (take_subseq 255 stripped)).
    split; [assumption|]. split; [lia|]. split.
    + exact (all_chars_subseq _ _ _ (take_subseq 255 stripped) Hvalid).
    + now apply take_start.
  - apply Nat.ltb_ge in Hcut. auto.
Qed.

Lemma replace_invalid_id (s : string) :
  all_chars (fun c => negb (invalid_in_filename c)) s = true ->
  replace_invalid s = s.
Proof.
  induction s as [|c s IH]; simpl; [reflexivity|].
  intros H. apply andb_true_iff in H as [Hc Hs].
  apply negb_true_iff in Hc. now rewrite Hc, IH.
Qed.

(** X15. A name that holds none of the replaced characters, neither begins
    nor ends with a full stop or a space, and has at most 255 characters is
    returned as it is. *)
Theorem safe_filename_keeps_safe_names :
  forall filename : string,
    all_chars (fun c => negb (invalid_in_filename c)) filename = true ->
    strip_chars ". " filename = filename ->
    String.length filename <= 255 ->
    safe_filename filename = filename.
Proof.
  intros f Hvalid Hstrip Hlen. unfold safe_filename. cbv zeta.
  rewrite (replace_invalid_id _ Hvalid), Hstrip.
  apply Nat.ltb_ge in Hlen. now rewrite Hlen.
Qed.

Lemma safe_filename_keeps_safe_names_witness :
  all_chars (fun c => negb (invalid_in_filename c)) "report v2.md" = true
  /\ strip_chars ". " "report v2.md" = "report v2.md"%string
  /\ String.length "report v2.md" <= 255
  /\ safe_filename "report v2.md" = "report v2.md"%string.
Proof.
  split; [reflexivity|]. split; [reflexivity|]. split; [simpl; lia|].
  apply safe_filename_keeps_safe_names; [reflexivity | reflexivity | simpl; lia].
Defined.

Example safe_filename_demo :
  safe_filename " ..a/b:c?.txt. " = "a_b_c_.txt"%string.
Proof. reflexivity. Qed.

(** *** [validate_email] *)

Lemma sapp_eq_empty (a b : string) :
  (a ++ b)%string = EmptyString -> a = EmptyString /\ b = EmptyString.
Proof. destruct a; simpl; [auto | discriminate]. Qed.

Lemma sapp_eq_cons (a b : string) (c : ascii) (s : string) :
  (a ++ b)%string = String c s ->
  (a = EmptyString /\ b = String c s)
  \/ exists a', a = String c a' /\ s = (a' ++ b)%string.
Proof.
  destruct a as [|x a]; simpl; intros H; [now left|].
  injection H as -> <-. right. now exists a.
Qed.

Lemma nullable_matches (r : Re.regex) :
  Re.nullable r = true <-> Re.matches r EmptyString.
Proof.
  split.
  - induction r as [| |p|r1 IH1 r2 IH2|r1 IH1 r2 IH2|r IH]; simpl; intros H;
      try discriminate H.
    + constructor.
    + apply andb_true_iff in H as [H1 H2].
      change EmptyString with (EmptyString ++ EmptyString)%string.
      constructor; auto.
    + apply orb_true_iff in H as [H|H];
        [apply Re.m_alt_l | apply Re.m_alt_r]; auto.
    + constructor.
  - intros H. remember EmptyString as s eqn:Hs.
    induction H as [|p c Hp|r1 r2 s1 s2 _ IH1 _ IH2|r1 r2 s _ IH|r1 r2 s _ IH
                    |r|r s1 s2 _ _ _ _]; simpl; try reflexivity.
    + discriminate Hs.
    + apply sapp_eq_empty in Hs as [-> ->]. now rewrite IH1, IH2.
    + now rewrite IH.
    + rewrite IH by exact Hs. apply orb_true_r.
Qed.

Lemma deriv_matches (r : Re.regex) :
  forall c s, Re.matches (Re.deriv c r) s -> Re.matches r (String c s).
Proof.
  induction r as [| |p|r1 IH1 r2 IH2|r1 IH1 r2 IH2|r IH]; intros c s H; simpl in H.
  - inversion H.
  - inversion H.
  - destruct (p c) eqn:Hp; inversion H; subst. now constructor.
  - assert (Hcat : Re.matches (Re.Cat (Re.deriv c r1) r2) s ->
                   Re.matches (Re.Cat r1 r2) (String c s)).
    { intros Hm. inversion Hm as [| |? ? s1 s2 Hm1 Hm2| | | |]; subst.
      change (String c (s1 ++ s2)) with (String c s1 ++ s2)%string.
      constructor; auto. }
    destruct (Re.nullable r1) eqn:Hn; [|now apply Hcat].
    inversion H as [| | |? ? ? Hm|? ? ? Hm| |]; subst; [now apply Hcat|].
    change (String c s) with (EmptyString ++ String c s)%string.
    constructor; [now apply nullable_matches | auto].
  - inversion H; subst; [apply Re.m_alt_l | apply Re.m_alt_r]; auto.
  - inversion H as [| |? ? s1 s2 Hm1 Hm2| | | |]; subst.
    change (String c (s1 ++ s2)) with (String c s1 ++ s2)%string.
    constructor; auto.
Qed.

Lemma matches_deriv (r : Re.regex) (t : string) :
  Re.matches r t ->
  forall c s, t = String c s -> Re.matches (Re.deriv c r) s.
Proof.
  induction 1 as [|p x Hp|r1 r2 s1 s2 H1 IH1 H2 IH2|r1 r2 t H IH|r1 r2 t H IH
                  |r|r s1 s2 H1 IH1 H2 IH2]; intros c s Ht; simpl.
  - discriminate Ht.
  - injection Ht as -> <-. rewrite Hp. constructor.
  - apply sapp_eq_cons in Ht as [[-> ->]|(a' & -> & ->)].
    + apply nullable_matches in H1. rewrite H1. apply Re.m_alt_r. now apply IH2.
    + destruct (Re.nullable r1); [apply Re.m_alt_l|];
        constructor; auto.
  - apply Re.m_alt_l. now apply IH.
  - apply Re.m_alt_r. now apply IH.
  - discriminate Ht.
  - apply sapp_eq_cons in Ht as [[-> ->]|(a' & -> & ->)].
    + now apply IH2.
    + constructor; auto.
Qed.

(** Matching by derivatives decides the language of the pattern. *)
Lemma fullmatch_matches (s : string) :
  forall r, Re.fullmatch r s = true <-> Re.matches r s.
Proof.
  induction s as [|c s IH]; intros r; simpl.
  - apply nullable_matches.
  - rewrite IH. split; [apply deriv_matches|].
    intros H. exact (matches_deriv r _ H c s eq_refl).
Qed.

Lemma matches_class (p : ascii -> bool) (s : string) :
  Re.matches (Re.Class p) s <-> exists c, s = String c EmptyString /\ p c = true.
Proof.
  split.
  - intros H. inversion H; subst. eauto.
  - intros (c & -> & Hp). now constructor.
Qed.

Lemma matches_class_star (p : ascii -> bool) (s : string) :
  Re.matches (Re.Star (Re.Class p)) s <-> all_chars p s = true.
Proof.
  split.
  - intros H. remember (Re.Star (Re.Class p)) as r eqn:Hr.
    induction H as [| | | | |r'|r' s1 s2 H1 _ H2 IH2]; try discriminate Hr.
    + reflexivity.
    + injection Hr as ->. apply matches_class in H1 as (c & -> & Hp).
      simpl. rewrite Hp. now apply IH2.
  - induction s as [|c s IH]; simpl; intros H; [constructor|].
    apply andb_true_iff in H as [Hc Hs].
    change (String c s) with (String c EmptyString ++ s)%string.
    constructor; [now constructor | auto].
Qed.

Lemma matches_class_plus (p : ascii -> bool) (s : string) :
  Re.matches (Re.Plus (Re.Class p)) s
  <-> s <> EmptyString /\ all_chars p s = true.
Proof.
  unfold Re.Plus. split.
  - intros H. inversion H as [| |? ? s1 s2 H1 H2| | | |]; subst.
    apply matches_class in H1 as (c & -> & Hp).
    apply matches_class_star in H2. simpl. rewrite Hp, H2.
    split; [discriminate | reflexivity].
  - intros [Hne H]. destruct s as [|c s]; [contradiction|].
    simpl in H. apply andb_true_iff in H as [Hc Hs].
    change (String c s) with (String c EmptyString ++ s)%string.
    constructor; [now constructor | now apply matches_class_star].
Qed.

Lemma matches_chr (a : ascii) (s : string) :
  Re.matches (Re.Chr a) s <-> s = String a EmptyString.
Proof.
  unfold Re.Chr. rewrite matches_class. split.
  - intros (c & -> & Hc). apply Ascii.eqb_eq in Hc. now subst.
  - intros ->. exists a. split; [reflexivity | apply Ascii.eqb_refl].
Qed.

Lemma email_pattern_shape (email : string) :
  Re.matches email_pattern email <-> email_shape email.
Proof.
  unfold email_pattern, email_shape. split.
  - intros H.
    inversion H as [| |? ? local s1 Hl H1| | | |]; subst; clear H.
    inversion H1 as [| |? ? at_ s2 Ha H2| | | |]; subst; clear H1.
    inversion H2 as [| |? ? domain s3 Hd H3| | | |]; subst; clear H2.
    inversion H3 as [| |? ? dot s4 Hdot H4| | | |]; subst; clear H3.
    inversion H4 as [| |? ? l1 s5 Hl1 H5| | | |]; subst; clear H4.
    inversion H5 as [| |? ? l2 s6 Hl2 H6| | | |]; subst; clear H5.
    inversion H6 as [| |? ? ls newline Hls Hnl| | | |]; subst; clear H6.
    apply matches_class_plus in Hl as [Hl1' Hl2'].
    apply matches_class_plus in Hd as [Hd1 Hd2].
    apply matches_chr in Ha. apply matches_chr in Hdot. subst at_ dot.
    apply matches_class in Hl1 as (c1 & -> & Hc1).
    apply matches_class in Hl2 as (c2 & -> & Hc2).
    apply matches_class_star in Hls.
    exists local, domain, (String c1 (String c2 ls)), newline.
    split; [reflexivity|]. split; [exact Hl1'|]. split; [exact Hl2'|].
    split; [exact Hd1|]. split; [exact Hd2|]. split; [simpl; lia|].
    split; [simpl; now rewrite Hc1, Hc2, Hls|].
    unfold Re.Opt in Hnl.
    inversion Hnl as [| | |? ? ? Hn|? ? ? Hn| |]; subst.
    + apply matches_chr in Hn. now right.
    + inversion Hn. now left.
  - intros (local & domain & tld & newline & -> & Hl1 & Hl2 & Hd1 & Hd2 & Ht1
            & Ht2 & Hnl).
    destruct tld as [|c1 [|c2 ls]]; simpl in Ht1; try lia.
    simpl in Ht2. apply andb_true_iff in Ht2 as [Hc1 Ht2].
    apply andb_true_iff in Ht2 as [Hc2 Hls].
    constructor; [now apply matches_class_plus|].
    change ("@" ++ domain ++ "." ++ String c1 (String c2 ls) ++ newline)%string
      with (String "@" EmptyString
            ++ (domain ++ (String "." EmptyString
                           ++ (String c1 EmptyString
                               ++ (String c2 EmptyString ++ (ls ++ newline))))))%string.
    constructor; [now apply matches_chr|].
    constructor; [now apply matches_class_plus|].
    constructor; [now apply matches_chr|].
    constructor; [now constructor|].
    constructor; [now constructor|].
    constructor; [now apply matches_class_star|].
    destruct Hnl as [->| ->].
    + apply Re.m_alt_r. constructor.
    + apply Re.m_alt_l. now apply matches_chr.
Qed.

Lemma validate_email_shape :
  forall email : string,
    validate_email email = true <-> email_shape email.
Proof.
  intros email. unfold validate_email.
  destruct email as [|c email]; cbn [Py.truthy negb].
  - split; [discriminate|].
    intros (local & domain & tld & newline & H & Hne & _).
    destruct local; [contradiction | discriminate H].
  - rewrite fullmatch_matches. apply email_pattern_shape.
Qed.

(** X16. [validate_email] accepts exactly the strings made of a non-empty
    local part of letters, digits and the characters [._%+-], an at sign, a
    non-empty domain of letters, digits, full stops and hyphens, a full
    stop, and two or more letters; one newline after that is let through by
    the closing [$]. *)
Theorem validate_email_accepts_exactly :
  forall email : string,
    validate_email email = true <-> email_shape email.
Proof. exact validate_email_shape. Qed.

Lemma count_char_app (a : ascii) (s t : string) :
  count_char a (s ++ t) = count_char a s + count_char a t.
Proof. induction s as [|c s IH]; simpl; [reflexivity | rewrite IH; lia]. Qed.

Lemma count_char_none (a : ascii) (p : ascii -> bool) (s : string) :
  p a = false -> all_chars p s = true -> count_char a s = 0.
Proof.
  intros Ha. induction s as [|c s IH]; simpl; [reflexivity|].
  intros H. apply andb_true_iff in H as [Hc Hs].
  destruct (Ascii.eqb_spec c a) as [->|_]; [congruence | now apply IH].
Qed.

(** X17. An address that [validate_email] accepts has exactly one at sign
    and at least six characters; the empty string is rejected. *)
Theorem validate_email_one_at_sign :
  forall email : string,
    validate_email email = true ->
    count_char "@" email = 1 /\ 6 <= String.length email.
Proof.
  intros email H. apply validate_email_shape in H
    as (local & domain & tld & newline & -> & Hl1 & Hl2 & Hd1 & Hd2 & Ht1 & Ht2
        & Hnl).
  split.
  - rewrite !count_char_app.
    rewrite (count_char_none "@" local_char local eq_refl Hl2).
    rewrite (count_char_none "@" domain_char domain eq_refl Hd2).
    rewrite (count_char_none "@" ascii_letter tld eq_refl Ht2).
    destruct Hnl as [->| ->]; reflexivity.
  - rewrite !length_sapp. simpl.
    destruct local; [contradiction|]. destruct domain; [contradiction|].
    simpl. lia.
Qed.

Lemma validate_email_one_at_sign_witness :
  validate_email "user.name@domain.co.uk" = true
  /\ count_char "@" "user.name@domain.co.uk" = 1
  /\ 6 <= String.length "user.name@domain.co.uk".
Proof.
  split; [reflexivity|].
  apply validate_email_one_at_sign. reflexivity.
Defined.

Example validate_email_demo :
  validate_email "test@example.com" = true
  /\ validate_email "user.name@domain.co.uk" = true
  /\ validate_email "invalid-email" = false
  /\ validate_email "" = false
  /\ validate_email "@domain.com" = false
  /\ validate_email ("a@b.co" ++ nl) = true
  /\ validate_email "a@b..co" = true
  /\ validate_email "a@b.c0m" = false.
Proof. repeat split; reflexivity. Qed.

(** ** [utils/config.py] *)

Section ConfigProperties.

Variable int : string -> string + Z.

Lemma get_required_set (env : Config.Env) (key : string) :
  Config.is_set env key = true ->
  Config.get_required_env_var env key = inr (Config.value_or env key EmptyString).
Proof.
  unfold Config.is_set, Config.get_required_env_var, Config.getenv,
    Config.value_or.
  destruct (env key) as [v|]; [|discriminate]. intros ->. reflexivity.
Qed.

Lemma get_required_unset (env : Config.Env) (key : string) :
  Config.is_set env key = false ->
  Config.get_required_env_var env key
  = inl (Config.ValueError ("Required environment variable " ++ key
                            ++ " is not set")).
Proof.
  unfold Config.is_set, Config.get_required_env_var, Config.getenv.
  destruct (env key) as [v|]; [intros ->|]; reflexivity.
Qed.

(** X18. [get_required_env_var] returns the value of a variable exactly
    when the variable is set to a string that is not empty; a variable that
    is missing or empty gives the [ValueError] that names it. *)
Theorem get_required_env_var_needs_a_value :
  forall (env : Config.Env) (key : string),
    (forall value,
        Config.get_required_env_var env key = inr value
        <-> env key = Some value /\ value <> EmptyString)
    /\ ((env key = None \/ env key = Some EmptyString) ->
        Config.get_required_env_var env key
        = inl (Config.ValueError ("Required environment variable " ++ key
                                  ++ " is not set"))).
Proof.
  intros env key. unfold Config.get_required_env_var, Config.getenv. split.
  - intros value. destruct (env key) as [v|].
    + destruct v as [|c v]; cbn [Py.truthy].
      * split; [discriminate|]. intros [H Hne]. injection H as <-. contradiction.
      * split.
        -- intros H. injection H as <-. split; [reflexivity | discriminate].
        -- intros [H _]. injection H as <-. reflexivity.
    + split; [discriminate | intros [H _]; discriminate H].
  - intros [->| ->]; reflexivity.
Qed.

Lemma get_config_first_missing :
  forall (env : Config.Env) (before after : list string) (key : string),
    Config.required_variables = before ++ key :: after ->
    Forall (fun k => Config.is_set env k = true) before ->
    Config.is_set env key = false ->
    Config.get_config int env
    = inl (Config.ValueError ("Required environment variable " ++ key
                              ++ " is not set")).
Proof.
  intros env before after key Hreq Hbefore Hkey.
  unfold Config.required_variables in Hreq. unfold Config.get_config.
  destruct before as [|k1 before]; simpl in Hreq.
  { injection Hreq as <- _. now rewrite (get_required_unset _ _ Hkey). }
  injection Hreq as <- Hreq. inversion Hbefore as [|? ? H1 Hbefore']; subst.
  rewrite (get_required_set _ _ H1).
  destruct before as [|k2 before]; simpl in Hreq.
  { injection Hreq as <- _. now rewrite (get_required_unset _ _ Hkey). }
  injection Hreq as <- Hreq. inversion Hbefore' as [|? ? H2 Hbefore'']; subst.
  rewrite (get_required_set _ _ H2).
  destruct before as [|k3 before]; simpl in Hreq.
  { injection Hreq as <- _. now rewrite (get_required_unset _ _ Hkey). }
  injection Hreq as <- Hreq. inversion Hbefore'' as [|? ? H3 Hbefore''']; subst.
  rewrite (get_required_set _ _ H3).
  destruct before as [|k4 before]; simpl in Hreq.
  { injection Hreq as <- _. now rewrite (get_required_unset _ _ Hkey). }
  injection Hreq as _ Hreq. destruct before; discriminate Hreq.
Qed.

(** X19. [get_config] reads the required variables in the order
    SENDGRID_API_KEY, FROM_EMAIL, TO_EMAIL, OPENAI_API_KEY and fails on the
    first that is missing or empty, with the [ValueError] naming that
    variable, whatever the others are. *)
Theorem get_config_names_first_missing_variable :
  forall (env : Config.Env) (before after : list string) (key : string),
    Config.required_variables = before ++ key :: after ->
    Forall (fun k => Config.is_set env k = true) before ->
    Config.is_set env key = false ->
    Config.get_config int env
    = inl (Config.ValueError ("Required environment variable " ++ key
                              ++ " is not set")).
Proof. exact get_config_first_missing. Qed.

Lemma get_config_all_set (env : Config.Env) :
  Forall (fun k => Config.is_set env k = true) Config.required_variables ->
  Config.get_config int env
  = match int (Config.value_or env "MAX_SEARCHES" "5") with
    | inl msg => inl (Config.ValueError msg)
    | inr n =>
        inr {| openai_api_key := Config.value_or env "OPENAI_API_KEY" EmptyString;
               email_config :=
                 {| sendgrid_api_key :=
                      Config.value_or env "SENDGRID_API_KEY" EmptyString;
                    from_email := Config.value_or env "FROM_EMAIL" EmptyString;
                    to_email := Config.value_or env "TO_EMAIL" EmptyString |};
               log_level := Config.value_or env "LOG_LEVEL" "INFO";
               max_searches := n |}
    end.
Proof.
  intros Hall. unfold Config.required_variables in Hall.
  inversion Hall as [|? ? H1 Hall1]; subst.
  inversion Hall1 as [|? ? H2 Hall2]; subst.
  inversion Hall2 as [|? ? H3 Hall3]; subst.
  inversion Hall3 as [|? ? H4 _]; subst.
  unfold Config.get_config.
  rewrite (get_required_set _ _ H1), (get_required_set _ _ H2),
    (get_required_set _ _ H3), (get_required_set _ _ H4).
  unfold Config.get_optional_env_var, Config.getenv, Config.value_or.
  destruct (env "MAX_SEARCHES"%string) as [m|];
    destruct (env "LOG_LEVEL"%string) as [l|];
    match goal with |- context [int ?t] => destruct (int t) end; reflexivity.
Qed.

(** X20. With the four required variables set, [get_config] succeeds as
    soon as [int] accepts the text of MAX_SEARCHES: the configuration holds
    the values of the variables, and the two optional settings fall back to
    the log level INFO and, through the literal 5, to a maximum of five
    searches when their variables are not in the environment. *)
Theorem get_config_reads_environment_with_defaults :
  forall (env : Config.Env) (n : Z),
    Forall (fun k => Config.is_set env k = true) Config.required_variables ->
    int (Config.value_or env "MAX_SEARCHES" "5") = inr n ->
    exists cfg,
      Config.get_config int env = inr cfg
      /\ openai_api_key cfg = Config.value_or env "OPENAI_API_KEY" EmptyString
      /\ sendgrid_api_key (email_config cfg)
         = Config.value_or env "SENDGRID_API_KEY" EmptyString
      /\ from_email (email_config cfg)
         = Config.value_or env "FROM_EMAIL" EmptyString
      /\ to_email (email_config cfg) = Config.value_or env "TO_EMAIL" EmptyString
      /\ max_searches cfg = n
      /\ (env "LOG_LEVEL"%string = None -> log_level cfg = default_log_level)
      /\ (forall level, env "LOG_LEVEL"%string = Some level -> log_level cfg = level)
      /\ (env "MAX_SEARCHES"%string = None -> int "5" = inr n).
Proof.
  intros env n Hall Hint. rewrite (get_config_all_set env Hall), Hint.
  eexists. split; [reflexivity|]. cbn [openai_api_key email_config
    sendgrid_api_key from_email to_email max_searches log_level].
  do 5 (split; [reflexivity|]).
  unfold Config.value_or in *. split; [|split].
  - intros ->. reflexivity.
  - intros level ->. reflexivity.
  - intros Hnone. now rewrite Hnone in Hint.
Qed.

(** X21. [validate_config] never raises, and it answers [True] exactly when
    the four required variables are set and [int] accepts the text of
    MAX_SEARCHES (the literal 5 when the variable is not set). *)
Theorem validate_config_characterised :
  forall env : Config.Env,
    (exists b, Config.validate_config int env = inr b)
    /\ (Config.validate_config int env = inr true
        <-> Forall (fun k => Config.is_set env k = true) Config.required_variables
            /\ exists n, int (Config.value_or env "MAX_SEARCHES" "5") = inr n).
Proof.
  intros env. unfold Config.validate_config.
  destruct (Forall_Exists_dec (fun k => Config.is_set env k = true)
              (fun k => bool_dec (Config.is_set env k) true)
              Config.required_variables) as [Hall|Hex].
  - rewrite (get_config_all_set env Hall).
    destruct (int (Config.value_or env "MAX_SEARCHES" "5")) as [msg|n].
    + split; [eauto|]. split; [discriminate|].
      intros [_ [n Hn]]. discriminate Hn.
    + split; [eauto|]. split; [eauto | reflexivity].
  - assert (Hfail : exists key,
               Config.get_config int env
               = inl (Config.ValueError ("Required environment variable " ++ key
                                         ++ " is not set"))).
    { assert (Hsplit : exists before key after,
                 Config.required_variables = before ++ key :: after
                 /\ Forall (fun k => Config.is_set env k = true) before
                 /\ Config.is_set env key = false).
      { revert Hex. generalize Config.required_variables as l.
        induction l as [|k l IH]; intros Hex; [inversion Hex|].
        destruct (Config.is_set env k) eqn:Hk.
        - inversion Hex as [? ? Hn|? ? Hex']; subst; [congruence|].
          destruct (IH Hex') as (before & key & after & -> & Hb & Hkey).
          exists (k :: before), key, after. repeat split; auto.
        - exists [], k, l. repeat split; auto. }
      destruct Hsplit as (before & key & after & Hreq & Hb & Hkey).
      exists key.
      exact (get_config_first_missing env before after key Hreq Hb Hkey). }
    destruct Hfail as [key ->]. split; [eauto|]. split; [discriminate|].
    intros [Hall _]. exfalso.
    apply Exists_exists in Hex as (k & Hin & Hk).
    rewrite Forall_forall in Hall. exact (Hk (Hall k Hin)).
Qed.

End ConfigProperties.

Lemma get_config_names_first_missing_variable_witness :
  Config.required_variables
  = ["SENDGRID_API_KEY"%string] ++ "FROM_EMAIL"%string
      :: ["TO_EMAIL"; "OPENAI_API_KEY"]%string
  /\ Forall (fun k => Config.is_set Config.env_without_sender k = true)
            ["SENDGRID_API_KEY"%string]
  /\ Config.is_set Config.env_without_sender "FROM_EMAIL" = false
  /\ Config.get_config Config.int_of_default Config.env_without_sender
     = inl (Config.ValueError "Required environment variable FROM_EMAIL is not set").
Proof.
  split; [reflexivity|]. split; [repeat constructor|]. split; [reflexivity|].
  apply (get_config_names_first_missing_variable
           Config.int_of_default Config.env_without_sender
           ["SENDGRID_API_KEY"%string] ["TO_EMAIL"; "OPENAI_API_KEY"]%string
           "FROM_EMAIL");
    [reflexivity | repeat constructor | reflexivity].
Defined.

Lemma get_config_reads_environment_with_defaults_witness :
  Forall (fun k => Config.is_set Config.full_env k = true)
         Config.required_variables
  /\ Config.int_of_default (Config.value_or Config.full_env "MAX_SEARCHES" "5")
     = inr 5%Z
  /\ exists cfg,
       Config.get_config Config.int_of_default Config.full_env = inr cfg
       /\ max_searches cfg = default_max_searches
       /\ log_level cfg = default_log_level.
Proof.
  assert (Hall : Forall (fun k => Config.is_set Config.full_env k = true)
                        Config.required_variables) by (repeat constructor).
  split; [exact Hall|]. split; [reflexivity|].
  destruct (get_config_reads_environment_with_defaults
              Config.int_of_default Config.full_env 5%Z Hall eq_refl)
    as (cfg & Hcfg & _ & _ & _ & _ & Hmax & Hlevel & _).
  exists cfg. split; [exact Hcfg|]. split; [exact Hmax|].
  apply Hlevel. reflexivity.
Defined.

(** ** The scripted run, when every service is down *)

Local Abbreviation down_run :=
  (run Scripted.World Scripted.Runner_down Scripted.gen_trace_id Scripted.Time
       Scripted.loop_time Scripted.format_elapsed Scripted.as_completed
       Scripted.config).

Lemma run_failure_is_yielded_last_witness :
  value_of _ (down_run Scripted.manager "rocq" 0) = inl (Exception "HTTP 503")
  /\ last (yields (events_of _ (down_run Scripted.manager "rocq" 0))) EmptyString
     = (error_mark ++ " Error during research: HTTP 503")%string.
Proof.
  split; [reflexivity|].
  destruct (run_failure_is_yielded_last
              Scripted.World Scripted.Runner_down Scripted.gen_trace_id
              Scripted.Time Scripted.loop_time Scripted.format_elapsed
              Scripted.as_completed Scripted.config Scripted.manager "rocq" 0
              (Exception "HTTP 503") eq_refl)
    as (tid & w0 & _ & [H|[H|H]]).
  - destruct H as (ev1 & w1 & _ & ->). reflexivity.
  - destruct H as (ev1 & w1 & search_plan & ev2 & w2 & search_results & ev3 & w3
                   & _ & _ & _ & ->). reflexivity.
  - destruct H as (ev1 & w1 & search_plan & ev2 & w2 & search_results & ev3 & w3
                   & report & ev4 & w4 & _ & _ & _ & _ & ->). reflexivity.
Defined.

Lemma perform_searches_counts_successes_witness :
  (forall w tasks, Permutation (Scripted.as_completed w tasks) tasks)
  /\ value_of _ (scripted_perform_searches Scripted.manager Scripted.plan 0)
     = inr ["summary #2"; "summary #0"]%string
  /\ List.length ["summary #2"; "summary #0"]%string
     = List.length
         (successes (scripted_search_each Scripted.manager
                                          (searches Scripted.plan) 0)).
Proof.
  split; [exact scripted_as_completed_perm|]. split; [reflexivity|].
  apply (perform_searches_counts_successes
           Scripted.World Scripted.Runner_run Scripted.as_completed
           scripted_as_completed_perm Scripted.manager Scripted.plan 0).
  reflexivity.
Defined.

Lemma perform_searches_logs_no_task_error_witness :
  (forall w tasks, Permutation (Scripted.as_completed w tasks) tasks)
  /\ ~ In (Log ERROR ("Error in search task: " ++ str_of_exn (Exception "HTTP 503")))
          (events_of _ (scripted_perform_searches Scripted.manager Scripted.plan 0)).
Proof.
  split; [exact scripted_as_completed_perm|].
  apply (perform_searches_logs_no_task_error
           Scripted.World Scripted.Runner_run Scripted.as_completed
           scripted_as_completed_perm).
Defined.

(** ** The order of the keywords *)

Lemma among_In (keys : list string) (w : string) :
  among keys w = true <-> In w keys.
Proof.
  unfold among. rewrite existsb_exists. split.
  - intros (x & Hin & Heq). apply String.eqb_eq in Heq. now subst.
  - intros Hin. exists w. split; [exact Hin | apply String.eqb_refl].
Qed.

Lemma dict_set_key_list (d : Py.dict nat) (k : string) (v : nat) :
  map fst (Py.dict_set d k v)
  = if among (map fst d) k then map fst d else map fst d ++ [k].
Proof.
  induction d as [|[y n] d IH]; simpl; [reflexivity|].
  unfold among in *. simpl. rewrite (String.eqb_sym k y).
  destruct (String.eqb y k); simpl; [reflexivity|].
  rewrite IH. destruct (existsb (String.eqb k) (map fst d)); reflexivity.
Qed.

Lemma filter_twice {A : Type} (p q : A -> bool) (l : list A) :
  filter p (filter q l) = filter (fun x => q x && p x) l.
Proof.
  induction l as [|x l IH]; simpl; [reflexivity|].
  destruct (q x); simpl; [destruct (p x)|]; now rewrite IH.
Qed.

(** The keys of the dictionary of counts: those it had, then the new words
    in the order of their first occurrence. *)
Lemma count_fold_key_list (l : list string) :
  forall d,
    map fst (fold_left count_step l d)
    = map fst d
      ++ filter (fun w => negb (among (map fst d) w)) (first_occurrences l).
Proof.
  induction l as [|x l IH]; intros d; simpl; [now rewrite app_nil_r|].
  rewrite IH. unfold count_step at 1 2. rewrite dict_set_key_list.
  destruct (among (map fst d) x) eqn:Hx; cbn [negb].
  - f_equal. rewrite filter_twice. apply filter_ext. intros w.
    destruct (String.eqb_spec w x) as [->|_]; [now rewrite Hx | reflexivity].
  - rewrite <- app_assoc. f_equal. simpl. f_equal.
    rewrite filter_twice. apply filter_ext. intros w.
    unfold among. rewrite existsb_app. simpl. rewrite orb_false_r.
    fold (among (map fst d) w). rewrite negb_orb. apply andb_comm.
Qed.

(** The dictionary of counts holds each distinct keyword once, at the place
    of its first occurrence, with the number of its occurrences. *)
Lemma count_words_closed_form (keywords : list string) :
  count_words keywords
  = map (fun w => (w, count_occ string_dec keywords w))
        (first_occurrences keywords).
Proof.
  pose proof (count_fold_key_list keywords []) as Hkeys.
  simpl in Hkeys. fold (count_words keywords) in Hkeys.
  assert (Hall : filter (fun _ : string => true) (first_occurrences keywords)
                 = first_occurrences keywords).
  { generalize (first_occurrences keywords) as l.
    induction l as [|x l IH]; simpl; congruence. }
  change (fun w => negb (among [] w)) with (fun _ : string => true) in Hkeys.
  rewrite Hall in Hkeys. rewrite <- Hkeys, map_map.
  rewrite <- (map_id (count_words keywords)) at 1.
  apply map_ext_in. intros [w n] Hin.
  apply count_words_entries in Hin as [_ ->]. reflexivity.
Qed.

Lemma first_occurrences_incl (l : list string) (w : string) :
  In w (first_occurrences l) -> In w l.
Proof.
  induction l as [|x l IH]; simpl; [tauto|].
  intros [H|H]; [now left|]. right. apply IH. apply filter_In in H. tauto.
Qed.

Lemma extract_keywords_closed_form_eq :
  forall (text : string) (max_keywords : Z),
    extract_keywords text max_keywords
    = map fst
        (Py.slice_to max_keywords
           (Py.sorted_by_count_desc
              (map (fun w => (w, frequency text w))
                   (first_occurrences
                      (filter keep_word (Py.findall_words (Py.lower text))))))).
Proof.
  intros text k. unfold extract_keywords. rewrite count_words_closed_form.
  do 3 f_equal. apply map_ext_in. intros w Hin. f_equal.
  apply first_occurrences_incl, filter_In in Hin as [_ Hkeep].
  unfold frequency. now apply count_occ_filter.
Qed.

(** X22. The keywords of [extract_keywords] are the distinct words kept, in
    the order in which they first occur in the text, sorted by descending
    frequency with a sort that leaves words of equal frequency in that
    order, and cut at [max_keywords]. *)
Theorem extract_keywords_closed_form :
  forall (text : string) (max_keywords : Z),
    extract_keywords text max_keywords
    = map fst
        (Py.slice_to max_keywords
           (Py.sorted_by_count_desc
              (map (fun w => (w, frequency text w))
                   (first_occurrences
                      (filter keep_word (Py.findall_words (Py.lower text))))))).
Proof. exact extract_keywords_closed_form_eq. Qed.

Example keywords_ties_keep_first_occurrence :
  extract_keywords "zebra apple zebra mango apple kiwi" 10
  = ["zebra"; "apple"; "mango"; "kiwi"]%string.
Proof. reflexivity. Qed.

Lemma insert_desc_stable {K : Type} (n : nat) (x : K * nat) (l : list (K * nat)) :
  filter (fun e => snd e =? n) (Py.insert_desc x l)
  = filter (fun e => snd e =? n) (x :: l).
Proof.
  induction l as [|y l IH]; [reflexivity|].
  cbn [Py.insert_desc]. destruct (Nat.ltb_spec (snd x) (snd y)) as [Hlt|Hge];
    [|reflexivity].
  cbn [filter] in *. rewrite IH.
  destruct (Nat.eqb_spec (snd x) n) as [Hx|Hx];
    destruct (Nat.eqb_spec (snd y) n) as [Hy|Hy]; try reflexivity. lia.
Qed.

(** The sort is stable: the entries of any one count keep their order. *)
Lemma sorted_by_count_desc_stable {K : Type} (n : nat) (l : list (K * nat)) :
  filter (fun e => snd e =? n) (Py.sorted_by_count_desc l)
  = filter (fun e => snd e =? n) l.
Proof.
  induction l as [|x l IH]; [reflexivity|].
  cbn [Py.sorted_by_count_desc]. rewrite insert_desc_stable.
  cbn [filter]. now rewrite IH.
Qed.

Lemma filter_firstn_prefix {A : Type} (p : A -> bool) (m : nat) (l : list A) :
  exists rest, filter p l = filter p (firstn m l) ++ rest.
Proof.
  exists (filter p (skipn m l)).
  rewrite <- filter_app, firstn_skipn. reflexivity.
Qed.

Lemma filter_map_fst (f : string -> nat) (n : nat) (l : list (string * nat)) :
  (forall w c, In (w, c) l -> c = f w) ->
  filter (fun w => f w =? n) (map fst l)
  = map fst (filter (fun e => snd e =? n) l).
Proof.
  induction l as [|[w c] l IH]; intros Hf; [reflexivity|].
  cbn [map filter fst snd].
  rewrite <- (Hf w c (or_introl eq_refl)).
  rewrite IH by (intros w' c' Hin; apply Hf; now right).
  destruct (c =? n); reflexivity.
Qed.

(** X23. Among the keywords of one frequency, [extract_keywords] keeps the
    order of first occurrence in the text: for every frequency, the keywords
    returned with that frequency are the first of the distinct kept words of
    that frequency, in the order in which they first occur. *)
Theorem extract_keywords_ties_in_text_order :
  forall (text : string) (max_keywords : Z) (n : nat),
    exists rest,
      filter (fun w => frequency text w =? n)
             (first_occurrences
                (filter keep_word (Py.findall_words (Py.lower text))))
      = filter (fun w => frequency text w =? n)
               (extract_keywords text max_keywords)
        ++ rest.
Proof.
  intros text k n. rewrite extract_keywords_closed_form_eq.
  set (distinct := first_occurrences
                     (filter keep_word (Py.findall_words (Py.lower text)))).
  set (entries := map (fun w => (w, frequency text w)) distinct).
  assert (Hentries : forall w c, In (w, c) entries -> c = frequency text w).
  { intros w c Hin. apply in_map_iff in Hin as (w' & Heq & _).
    now injection Heq as <- <-. }
  assert (Hsorted : forall w c,
             In (w, c) (Py.slice_to k (Py.sorted_by_count_desc entries)) ->
             c = frequency text w).
  { intros w c Hin. apply Hentries. apply slice_to_incl in Hin.
    exact (Permutation_in _ (sorted_by_count_desc_perm entries) Hin). }
  rewrite (filter_map_fst (frequency text) n _ Hsorted).
  unfold Py.slice_to.
  destruct (filter_firstn_prefix (fun e : string * nat => snd e =? n)
              (Z.to_nat (if (k <? 0)%Z
                         then Z.max 0 (k + Z.of_nat (List.length
                                  (Py.sorted_by_count_desc entries)))
                         else Z.min k (Z.of_nat (List.length
                                  (Py.sorted_by_count_desc entries)))))
              (Py.sorted_by_count_desc entries)) as [rest Hrest].
  exists (map fst rest). rewrite <- map_app, <- Hrest.
  rewrite sorted_by_count_desc_stable.
  rewrite <- (filter_map_fst (frequency text) n entries Hentries).
  unfold entries. rewrite map_map. simpl. now rewrite map_id.
Qed.
